(** * Marketing attribution dashboard: attribution, conversion simulation,
      filtering and aggregation

    A shallow embedding of the pipeline of [src/index.tsx] and of its
    earlier revision [src/unnamed/part_000].  Both files share the
    function [generateMockData] (lines 16-82); they differ in the filters
    and in the analytics their [App] component derives from its result.

    Conventions of the embedding:
    - a JavaScript [Date] is its time value, an integer number of
      milliseconds ([Z]); an Invalid Date (time value NaN) only arises
      from parsing a filter input and is [None] of [option Z];
    - strings are [string]; [toUpperCase] is modelled on ASCII letters;
    - a [Map] and a plain object used as a dictionary are insertion-ordered
      association lists (property names are ordinary names, neither array
      indices nor names inherited from [Object.prototype]);
    - a [Set] of user ids is a [gset string];
    - [Math.random()] is an explicit sequence of draws [nat -> Q] read
      through a cursor; the rates, which the source computes in floating
      point, are exact rationals. *)

From Stdlib Require Import ZArith QArith Qround String Ascii List Bool Lia
  Permutation Sorted.
From stdpp Require Import base gmap strings pretty sorting.
Import ListNotations.

Local Open Scope string_scope.
Local Open Scope list_scope.
Local Open Scope Z_scope.

(** ** JavaScript string operations used by the source *)

Module JsString.

(** [s.includes(sub)] *)
Fixpoint includes (s sub : string) : bool :=
  if String.prefix sub s then true
  else match s with
       | EmptyString => false
       | String _ s' => includes s' sub
       end.

Fixpoint drop (n : nat) (s : string) : string :=
  match n, s with
  | O, _ => s
  | S _, EmptyString => EmptyString
  | S n', String _ s' => drop n' s'
  end.

(** [s.replace(pat, rep)] with a string pattern: the first occurrence only. *)
Fixpoint replace (s pat rep : string) : string :=
  if String.prefix pat s then (rep ++ drop (String.length pat) s)%string
  else match s with
       | EmptyString => EmptyString
       | String c s' => String c (replace s' pat rep)
       end.

Definition toUpperCaseChar (c : ascii) : ascii :=
  let n := nat_of_ascii c in
  if ((97 <=? n)%nat && (n <=? 122)%nat)%bool then ascii_of_nat (n - 32) else c.

(** [s.charAt(0).toUpperCase() + s.slice(1)], with [toUpperCase] as it is
    on ASCII letters: the strings the source capitalizes are the channels
    and the customer types of the data model, which are ASCII. *)
Definition capitalize (s : string) : string :=
  match s with
  | EmptyString => EmptyString
  | String c s' => String (toUpperCaseChar c) s'
  end.

Definition toLowerCaseChar (c : ascii) : ascii :=
  let n := nat_of_ascii c in
  if ((65 <=? n)%nat && (n <=? 90)%nat)%bool then ascii_of_nat (n + 32) else c.

Fixpoint toLowerCase (s : string) : string :=
  match s with
  | EmptyString => EmptyString
  | String c s' => String (toLowerCaseChar c) (toLowerCase s')
  end.

Definition isDashPlus (c : ascii) : bool :=
  (Ascii.eqb c "-" || Ascii.eqb c "+")%bool.

(** [s.split(/[-+]/)]; [cur] is the piece read so far. *)
Fixpoint splitFrom (cur s : string) : list string :=
  match s with
  | EmptyString => [cur]
  | String c s' =>
      if isDashPlus c then cur :: splitFrom EmptyString s'
      else splitFrom (cur ++ String c EmptyString)%string s'
  end.

Definition split_dash_plus (s : string) : list string := splitFrom EmptyString s.

Definition isDigit (c : ascii) : bool :=
  let n := nat_of_ascii c in ((48 <=? n)%nat && (n <=? 57)%nat)%bool.

Definition isSpace (c : ascii) : bool :=
  let n := nat_of_ascii c in ((n =? 32)%nat || ((9 <=? n)%nat && (n <=? 13)%nat))%bool.

Fixpoint trimStart (s : string) : string :=
  match s with
  | EmptyString => EmptyString
  | String c s' => if isSpace c then trimStart s' else s
  end.

(** The value of the longest prefix of decimal digits, [None] without one. *)
Fixpoint digits (acc : option Z) (s : string) : option Z :=
  match s with
  | EmptyString => acc
  | String c s' =>
      if isDigit c then
        digits (Some (10 * match acc with Some n => n | None => 0 end
                      + Z.of_nat (nat_of_ascii c - 48))) s'
      else acc
  end.

(** [parseInt(s, 10)], [None] for NaN. *)
Definition parseInt (s : string) : option Z :=
  match trimStart s with
  | String "-" s' => option_map Z.opp (digits None s')
  | String "+" s' => digits None s'
  | s' => digits None s'
  end.

End JsString.

(** ** Data model *)

Record User := mkUser {
  u_user_id : string;
  u_gender : string;
  u_age : Z;
  u_send_country : string;
  u_receive_country : string;
  u_customer_type : string;
  u_device_info : string;
  u_platform_type : string
}.

Record Event := mkEvent {
  event_id : string;
  e_user_id : string;
  e_timestamp : Z;
  event_name : string
}.

(** The object [{...user, channel, timestamp}] built at lines 54-58. *)
Record AttributedClick := mkClick {
  user_id : string;
  gender : string;
  age : Z;
  send_country : string;
  receive_country : string;
  customer_type : string;
  device_info : string;
  platform_type : string;
  channel : string;
  timestamp : Z
}.

Record Transaction := mkTransaction {
  t_user_id : string;
  t_channel : string;
  trx_volume : Z;
  t_timestamp : Z
}.

(** The event names the generator draws from (line 39). *)
Definition EVENT_NAMES : list string :=
  ["push_received"; "popup_received"; "slider_received";
   "push_clicked"; "popup_clicked"; "slider_clicked"].

(** ** First-click attribution (lines 43-61) *)

Definition isClicked (e : Event) : bool :=
  JsString.includes (event_name e) "_clicked".

(** [Array.prototype.sort((a, b) => a.timestamp - b.timestamp)]: the sort
    is stable, so it is the insertion of each element before the first one
    with a strictly later place in the order. *)
Fixpoint insertByTimestamp (x : Event) (s : list Event) : list Event :=
  match s with
  | [] => [x]
  | y :: s' =>
      if e_timestamp x <=? e_timestamp y then x :: y :: s'
      else y :: insertByTimestamp x s'
  end.

Fixpoint sortByTimestamp (l : list Event) : list Event :=
  match l with
  | [] => []
  | x :: l' => insertByTimestamp x (sortByTimestamp l')
  end.

Definition clickEvents (events : list Event) : list Event :=
  sortByTimestamp (List.filter isClicked events).

(** [users.find(u => u.user_id === id)] *)
Definition findUser (users : list User) (id : string) : option User :=
  List.find (fun u => String.eqb (u_user_id u) id) users.

(** The insertion-ordered [Map] from user id to attributed click. *)
Definition ClickMap := list (string * AttributedClick).

Definition Map_has (m : ClickMap) (k : string) : bool :=
  existsb (fun kv => String.eqb (fst kv) k) m.

Fixpoint Map_set (m : ClickMap) (k : string) (v : AttributedClick) : ClickMap :=
  match m with
  | [] => [(k, v)]
  | (k', v') :: m' =>
      if String.eqb k' k then (k, v) :: m' else (k', v') :: Map_set m' k v
  end.

Definition Map_values (m : ClickMap) : list AttributedClick := List.map snd m.

Definition channelOf (name : string) : string :=
  JsString.capitalize (JsString.replace name "_clicked" EmptyString).

Definition mergeUser (u : User) (ch : string) (ts : Z) : AttributedClick :=
  {| user_id := u_user_id u;
     gender := u_gender u;
     age := u_age u;
     send_country := u_send_country u;
     receive_country := u_receive_country u;
     customer_type := u_customer_type u;
     device_info := u_device_info u;
     platform_type := u_platform_type u;
     channel := ch;
     timestamp := ts |}.

(** The body of [clickEvents.forEach(event => ...)]. *)
Definition attributeStep (users : list User) (m : ClickMap) (event : Event)
  : ClickMap :=
  if negb (Map_has m (e_user_id event)) then
    match findUser users (e_user_id event) with
    | Some user =>
        Map_set m (e_user_id event)
          (mergeUser user (channelOf (event_name event)) (e_timestamp event))
    | None => m
    end
  else m.

Definition attributedClicks (events : list Event) (users : list User)
  : ClickMap :=
  fold_left (attributeStep users) (clickEvents events) [].

(** [clickData = Array.from(attributedClicks.values())] *)
Definition attribute (events : list Event) (users : list User)
  : list AttributedClick :=
  Map_values (attributedClicks events users).

(** ** Conversion simulation (lines 63-75) and reach (lines 77-78) *)

(** A computation that reads [Math.random()]: it receives the position of
    the next draw and returns its result with the position after it. *)
Definition Draw (A : Type) : Type := nat -> A * nat.

Definition ret {A : Type} (a : A) : Draw A := fun i => (a, i).

Definition bind {A B : Type} (c : Draw A) (k : A -> Draw B) : Draw B :=
  fun i => let (a, j) := c i in k a j.

Notation "x <~ c ;; k" := (bind c (fun x => k))
  (at level 100, c at next level, right associativity).

Definition Qltb (x y : Q) : bool := negb (Qle_bool y x).

Section Simulation.

(** [rng i] is the value of the [i]-th call of [Math.random()]. *)
Variable rng : nat -> Q.

Definition Math_random : Draw Q := fun i => (rng i, S i).

(** [rand(min, max)], line 13. *)
Definition rand (min max : Z) : Draw Z :=
  r <~ Math_random ;;
  ret (Qfloor (r * inject_Z (max - min + 1)) + min).

(** The body of [attributedClicks.forEach(click => ...)]: [None] when
    nothing is pushed. *)
Definition simulateClick (click : AttributedClick) : Draw (option Transaction) :=
  r <~ Math_random ;;
  if Qltb r (4 # 10) then
    volume <~ rand 50 800 ;;
    delay <~ rand (1000 * 60) (1000 * 60 * 60 * 24) ;;
    ret (Some {| t_user_id := user_id click;
                 t_channel := channel click;
                 trx_volume := volume;
                 t_timestamp := timestamp click + delay |})
  else ret None.

Fixpoint simulateFrom (transactions : list Transaction)
    (clicks : list AttributedClick) : Draw (list Transaction) :=
  match clicks with
  | [] => ret transactions
  | click :: rest =>
      o <~ simulateClick click ;;
      simulateFrom (match o with
                    | Some t => transactions ++ [t]
                    | None => transactions
                    end) rest
  end.

Definition simulateConversions (clicks : list AttributedClick)
  : Draw (list Transaction) :=
  simulateFrom [] clicks.

End Simulation.

Definition isReceived (e : Event) : bool :=
  JsString.includes (event_name e) "_received".

Definition totalReached (events : list Event) : Z :=
  Z.of_nat (size (list_to_set (List.map e_user_id (List.filter isReceived events))
                    : gset string)).

Record Dataset := mkDataset {
  clickData : list AttributedClick;
  ds_totalReached : Z;
  transactions : list Transaction
}.

(** [generateMockData] from line 43 on, for given users and events; [i] is
    the number of draws the generator has made before. *)
Definition generateFrom (events : list Event) (users : list User)
    (rng : nat -> Q) (i : nat) : Dataset :=
  let m := attributedClicks events users in
  let trans := fst (simulateConversions rng (Map_values m) i) in
  {| clickData := Map_values m;
     ds_totalReached := totalReached events;
     transactions := trans |}.

(** ** Plain objects used as dictionaries of numbers *)

(** The properties of an object in the order in which they were set first.
    This is the order of a plain object for ordinary property names: a
    name that is an array index is listed before the others, and a name
    of [Object.prototype] is read from the prototype before it is set.
    [ordinaryKey] below says which names are ordinary. *)
Definition Obj := list (string * Z).

Fixpoint Obj_get (o : Obj) (k : string) : option Z :=
  match o with
  | [] => None
  | (k', v) :: o' => if String.eqb k' k then Some v else Obj_get o' k
  end.

Fixpoint Obj_set (o : Obj) (k : string) (v : Z) : Obj :=
  match o with
  | [] => [(k, v)]
  | (k', v') :: o' =>
      if String.eqb k' k then (k, v) :: o' else (k', v') :: Obj_set o' k v
  end.

(** [o[k] || 0] *)
Definition orZero (v : option Z) : Z :=
  match v with
  | Some n => n
  | None => 0
  end.

Definition Obj_keys (o : Obj) : list string := List.map fst o.

(** The dimensions a grouped count is taken over: the property read by
    [curr[key]]. *)
Inductive Dimension :=
  | Channel | Gender | CustomerType | SendCountry | DeviceInfo | PlatformType.

Definition field (d : Dimension) (c : AttributedClick) : string :=
  match d with
  | Channel => channel c
  | Gender => gender c
  | CustomerType => customer_type c
  | SendCountry => send_country c
  | DeviceInfo => device_info c
  | PlatformType => platform_type c
  end.

(** [data.reduce((acc, curr) => { acc[curr[key]] = (acc[curr[key]] || 0) + 1;
    return acc; }, {})]: [reduceToCount] of index.tsx (line 246) and
    [countBy] of part_000 (line 190). *)
Definition reduceToCount (data : list AttributedClick) (key : Dimension) : Obj :=
  fold_left
    (fun acc curr =>
       Obj_set acc (field key curr) (orZero (Obj_get acc (field key curr)) + 1))
    data [].

(** The Date of a filter input, an Invalid Date being [None]; relational
    operators on an Invalid Date are false. *)
Definition Date_ge (a b : option Z) : bool :=
  match a, b with
  | Some x, Some y => y <=? x
  | _, _ => false
  end.

Definition Date_le (a b : option Z) : bool := Date_ge b a.

(** A filter value compared with the sentinel and with a property of the
    click; a missing filter is [undefined] and equals neither. *)
Definition matchesFilter (f : option string) (v : string) : bool :=
  match f with
  | Some x => (String.eqb x "all" || String.eqb v x)%bool
  | None => false
  end.

Definition Z_to_Q (n : Z) : Q := inject_Z n.

(** ** The dashboard of src/index.tsx *)

Module Index.

Record ChartFilter := mkChartFilter { category : string; value : string }.

Record State := mkState {
  filters : gmap string string;
  chartFilter : option ChartFilter
}.

(** [handleFilterChange], lines 203-207. *)
Definition handleFilterChange (name v : string) (st : State) : State :=
  {| filters := <[name := v]> (filters st); chartFilter := None |}.

Definition sameChartFilter (cf : ChartFilter) (cat v : string) : bool :=
  (String.eqb (category cf) cat && String.eqb (value cf) v)%bool.

(** [handleBarClick], lines 209-215. *)
Definition handleBarClick (cat v : string) (st : State) : State :=
  match chartFilter st with
  | Some cf =>
      if sameChartFilter cf cat v
      then {| filters := filters st; chartFilter := None |}
      else {| filters := filters st; chartFilter := Some (mkChartFilter cat v) |}
  | None => {| filters := filters st; chartFilter := Some (mkChartFilter cat v) |}
  end.

Definition handleClearChartFilter (st : State) : State :=
  {| filters := filters st; chartFilter := None |}.

Section Filtering.

(** [new Date(s).getTime()], [None] for NaN. *)
Variable Date_parse : string -> option Z.
(** The time value after [setHours(23, 59, 59, 999)], in the local zone. *)
Variable setHours_23_59_59_999 : Z -> Z.

Definition newDate (s : option string) : option Z :=
  match s with
  | Some x => Date_parse x
  | None => None
  end.

Definition startOf (f : gmap string string) : option Z :=
  newDate (f !! "startDate").

Definition endOf (f : gmap string string) : option Z :=
  option_map setHours_23_59_59_999 (newDate (f !! "endDate")).

Definition categoricalMatch (f : gmap string string) (d : AttributedClick)
  : bool :=
  (matchesFilter (f !! "country") (send_country d)
   && matchesFilter (f !! "device") (device_info d)
   && matchesFilter (f !! "platform") (platform_type d))%bool.

(** Lines 226-232. *)
Definition filteredClicks (f : gmap string string)
    (initialClickData : list AttributedClick) : list AttributedClick :=
  let start := startOf f in
  let end_ := endOf f in
  List.filter
    (fun d =>
       let date := Some (timestamp d) in
       (Date_ge date start && Date_le date end_ && categoricalMatch f d)%bool)
    initialClickData.

End Filtering.

(** Lines 234-235. *)
Definition filteredTrans (filteredClicks : list AttributedClick)
    (initialTransactions : list Transaction) : list Transaction :=
  let clickUserIds : gset string := list_to_set (List.map user_id filteredClicks) in
  List.filter (fun t => bool_decide (t_user_id t ∈ clickUserIds))
    initialTransactions.

Definition totalClicks (filteredClickData : list AttributedClick) : Z :=
  Z.of_nat (length filteredClickData).

Definition totalConversions (filteredTransactions : list Transaction) : Z :=
  Z.of_nat (length filteredTransactions).

Definition totalVolume (filteredTransactions : list Transaction) : Z :=
  fold_left (fun acc curr => acc + trx_volume curr) filteredTransactions 0.

(** Line 244. *)
Definition conversionRate (filteredClickData : list AttributedClick)
    (filteredTransactions : list Transaction) : Q :=
  if 0 <? totalClicks filteredClickData
  then (Z_to_Q (totalConversions filteredTransactions)
        / Z_to_Q (totalClicks filteredClickData) * 100)%Q
  else 0%Q.

(** The branch taken at lines 257-261. *)
Definition ageBucket (a : Z) : string :=
  if a <=? 25 then "18-25"
  else if a <=? 35 then "26-35"
  else if a <=? 45 then "36-45"
  else if a <=? 55 then "46-55"
  else "56+".

Definition ageGroups0 : Obj :=
  [("18-25", 0); ("26-35", 0); ("36-45", 0); ("46-55", 0); ("56+", 0)].

(** Lines 255-262; [o[k]++] writes [o[k] + 1]. *)
Definition ageGroups (filteredClickData : list AttributedClick) : Obj :=
  fold_left
    (fun acc user =>
       let k := ageBucket (age user) in
       Obj_set acc k (orZero (Obj_get acc k) + 1))
    filteredClickData ageGroups0.

(** Lines 264-267. *)
Definition customerTypeFormatted (customerTypeDistribution : Obj) : Obj :=
  fold_left
    (fun acc kv => Obj_set acc (JsString.capitalize (fst kv)) (snd kv))
    customerTypeDistribution [].

Record Analytics := mkAnalytics {
  a_totalReached : Z;
  a_totalClicks : Z;
  a_totalConversions : Z;
  a_conversionRate : Q;
  a_totalVolume : Z;
  channelPerformance : Obj;
  genderDistribution : Obj;
  customerTypeDistribution : Obj;
  a_ageGroups : Obj
}.

(** Lines 240-280. *)
Definition analytics (totalReached : Z)
    (filteredClickData : list AttributedClick)
    (filteredTransactions : list Transaction) : Analytics :=
  {| a_totalReached := totalReached;
     a_totalClicks := totalClicks filteredClickData;
     a_totalConversions := totalConversions filteredTransactions;
     a_conversionRate := conversionRate filteredClickData filteredTransactions;
     a_totalVolume := totalVolume filteredTransactions;
     channelPerformance := reduceToCount filteredClickData Channel;
     genderDistribution := reduceToCount filteredClickData Gender;
     customerTypeDistribution :=
       customerTypeFormatted (reduceToCount filteredClickData CustomerType);
     a_ageGroups := ageGroups filteredClickData |}.

(** [d[category] === value] for a string [value]: only a property that
    holds a string can be equal to it. *)
Definition propertyIs (cat v : string) (d : AttributedClick) : bool :=
  if String.eqb cat "user_id" then String.eqb (user_id d) v
  else if String.eqb cat "gender" then String.eqb (gender d) v
  else if String.eqb cat "send_country" then String.eqb (send_country d) v
  else if String.eqb cat "receive_country" then String.eqb (receive_country d) v
  else if String.eqb cat "customer_type" then String.eqb (customer_type d) v
  else if String.eqb cat "device_info" then String.eqb (device_info d) v
  else if String.eqb cat "platform_type" then String.eqb (platform_type d) v
  else if String.eqb cat "channel" then String.eqb (channel d) v
  else false.

(** The upper end of an age range: a number, NaN or [Infinity]. *)
Inductive Bound := NaN | Finite (n : Z) | Infinity.

(** Lines 291-292: [[min, maxStr] = value.split(/[-+]/)] and
    [max = maxStr ? parseInt(maxStr, 10) : Infinity]. *)
Definition ageRange (v : string) : option Z * Bound :=
  let parts := JsString.split_dash_plus v in
  let min := JsString.parseInt (hd EmptyString parts) in
  let max :=
    match tl parts with
    | maxStr :: _ =>
        if String.eqb maxStr EmptyString then Infinity
        else match JsString.parseInt maxStr with
             | Some n => Finite n
             | None => NaN
             end
    | [] => Infinity
    end in
  (min, max).

(** Line 293: [d.age >= parseInt(min, 10) && d.age <= max]. *)
Definition inAgeRange (v : string) (a : Z) : bool :=
  let (min, max) := ageRange v in
  (match min with Some lo => lo <=? a | None => false end
   && match max with
      | NaN => false
      | Finite hi => a <=? hi
      | Infinity => true
      end)%bool.

(** [filteredTableData], lines 282-297. *)
Definition filteredTableData (filteredClickData : list AttributedClick)
    (cf : option ChartFilter) : list AttributedClick :=
  match cf with
  | None => filteredClickData
  | Some {| category := cat; value := v |} =>
      if String.eqb cat "customer_type" then
        List.filter
          (fun d => String.eqb (JsString.toLowerCase (customer_type d))
                      (JsString.toLowerCase v))
          filteredClickData
      else if String.eqb cat "age" then
        List.filter (fun d => inAgeRange v (age d)) filteredClickData
      else List.filter (propertyIs cat v) filteredClickData
  end.

End Index.

(** ** The dashboard of src/unnamed/part_000 *)

Module Part000.

(** [handleFilterChange], lines 170-173. *)
Definition handleFilterChange (name v : string) (filters : gmap string string)
  : gmap string string :=
  <[name := v]> filters.

(** [filteredData], lines 175-180. *)
Definition filteredData (clickData : list AttributedClick)
    (filters : gmap string string) : list AttributedClick :=
  List.filter
    (fun d => (matchesFilter (filters !! "sendCountry") (send_country d)
               && matchesFilter (filters !! "customerType") (customer_type d))%bool)
    clickData.

(** [filteredTransactions], lines 182-186. *)
Definition filteredTransactions (filteredData : list AttributedClick)
    (transactions : list Transaction) : list Transaction :=
  if ((length filteredData =? 0)%nat || (length transactions =? 0)%nat)%bool
  then []
  else
    let filteredUserIds : gset string :=
      list_to_set (List.map user_id filteredData) in
    List.filter (fun t => bool_decide (t_user_id t ∈ filteredUserIds))
      transactions.

Definition countBy (data : list AttributedClick) (key : Dimension) : Obj :=
  reduceToCount data key.

(** Lines 195-198. *)
Definition transactionVolume (filteredTransactions : list Transaction) : Obj :=
  fold_left
    (fun acc curr =>
       Obj_set acc (t_channel curr)
         (orZero (Obj_get acc (t_channel curr)) + trx_volume curr))
    filteredTransactions [].

(** Lines 200-203. *)
Definition conversions (filteredTransactions : list Transaction) : Obj :=
  fold_left
    (fun acc curr =>
       Obj_set acc (t_channel curr) (orZero (Obj_get acc (t_channel curr)) + 1))
    filteredTransactions [].

Record Analytics := mkAnalytics {
  a_channel : Obj;
  a_device : Obj;
  a_customerType : Obj;
  a_sendCountry : Obj;
  a_gender : Obj;
  a_transactionVolume : Obj;
  a_conversions : Obj
}.

(** Lines 188-214. *)
Definition analytics (filteredData : list AttributedClick)
    (filteredTransactions : list Transaction) : Analytics :=
  {| a_channel := countBy filteredData Channel;
     a_device := countBy filteredData DeviceInfo;
     a_customerType := countBy filteredData CustomerType;
     a_sendCountry := countBy filteredData SendCountry;
     a_gender := countBy filteredData Gender;
     a_transactionVolume := transactionVolume filteredTransactions;
     a_conversions := conversions filteredTransactions |}.

Definition totalClicks (filteredData : list AttributedClick) : Z :=
  Z.of_nat (length filteredData).

(** Line 220. *)
Definition clickThroughRate (totalReached : Z)
    (filteredData : list AttributedClick) : Q :=
  if 0 <? totalReached
  then (Z_to_Q (totalClicks filteredData) / Z_to_Q totalReached * 100)%Q
  else 0%Q.

End Part000.

(** ** Sample data *)

Definition sample_user (id : string) (a : Z) : User :=
  mkUser id "Female" a "UK" "India" "active" "iOS" "app".

Definition sample_users : list User :=
  [sample_user "u1" 25; sample_user "u2" 26; sample_user "u3" 56].

(** The scenario of the specification, with a click of an unknown user. *)
Definition sample_events : list Event :=
  [mkEvent "e0" "u1" 10 "push_clicked"; mkEvent "e1" "u1" 5 "popup_clicked";
   mkEvent "e2" "u2" 7 "slider_clicked"; mkEvent "e3" "u9" 1 "push_clicked";
   mkEvent "e4" "u1" 2 "push_received"].

(** An instance of the Date constructor and of [setHours] for the
    samples: the strings of a date input, "YYYY-MM-DD", read as midnight
    UTC of that day, every other string as an Invalid Date; the local zone
    is UTC. *)
Definition allDigits (s : string) : bool :=
  forallb JsString.isDigit (list_ascii_of_string s).

Definition daysFromCivil (y m d : Z) : Z :=
  let y' := if m <=? 2 then y - 1 else y in
  let era := y' / 400 in
  let yoe := y' - era * 400 in
  let doy := (153 * (if 2 <? m then m - 3 else m + 9) + 2) / 5 + d - 1 in
  let doe := yoe * 365 + yoe / 4 - yoe / 100 + doy in
  era * 146097 + doe - 719468.

Definition isoDate (s : string) : option Z :=
  if ((String.length s =? 10)%nat
      && String.eqb (substring 4 1 s) "-" && String.eqb (substring 7 1 s) "-"
      && allDigits (substring 0 4 s) && allDigits (substring 5 2 s)
      && allDigits (substring 8 2 s))%bool
  then
    match JsString.digits None (substring 0 4 s),
          JsString.digits None (substring 5 2 s),
          JsString.digits None (substring 8 2 s) with
    | Some y, Some m, Some d =>
        if ((1 <=? m) && (m <=? 12) && (1 <=? d) && (d <=? 31))%bool
        then Some (daysFromCivil y m d * 86400000)
        else None
    | _, _, _ => None
    end
  else None.

Definition endOfDayUTC (t : Z) : Z := t - t mod 86400000 + 86399999.

(** Filters of index.tsx that admit the sample clicks. *)
Definition sample_filters : gmap string string :=
  list_to_map
    [("startDate", "1970-01-01"); ("endDate", "1970-01-01");
     ("country", "all"); ("device", "all"); ("platform", "all")].

(** The initial filters of part_000 (lines 165-168). *)
Definition sample_filters0 : gmap string string :=
  list_to_map [("sendCountry", "all"); ("customerType", "all")].

(** Draws that convert the first click and not the second. *)
Definition sample_rng (k : nat) : Q := if Nat.even k then 1 # 10 else 9 # 10.

(** The click events of one user, in the order of the event list. *)
Definition clicksOfUser (uid : string) (events : list Event) : list Event :=
  List.filter (fun e => String.eqb (e_user_id e) uid) (List.filter isClicked events).

(** The first event of the least timestamp. *)
Fixpoint firstMin (l : list Event) : option Event :=
  match l with
  | [] => None
  | x :: l' =>
      match firstMin l' with
      | Some y => if e_timestamp x <=? e_timestamp y then Some x else Some y
      | None => Some x
      end
  end.

(** The entries that [forEach] adds to a map whose keys are [seen]. *)
Fixpoint newEntries (users : list User) (seen : list string) (l : list Event)
  : ClickMap :=
  match l with
  | [] => []
  | e :: l' =>
      if existsb (fun k => String.eqb k (e_user_id e)) seen
      then newEntries users seen l'
      else match findUser users (e_user_id e) with
           | Some u =>
               (e_user_id e,
                mergeUser u (channelOf (event_name e)) (e_timestamp e))
               :: newEntries users (seen ++ [e_user_id e]) l'
           | None => newEntries users seen l'
           end
  end.

(** The distinct strings of [l] that are not in [seen], each at the place
    where it occurs first. *)
Fixpoint firstSeen (seen l : list string) : list string :=
  match l with
  | [] => []
  | x :: l' =>
      if existsb (String.eqb x) seen then firstSeen seen l'
      else x :: firstSeen (seen ++ [x]) l'
  end.

(** How often [k] occurs in [l]. *)
Definition occurrences (k : string) (l : list string) : Z :=
  Z.of_nat (length (List.filter (String.eqb k) l)).

(** The counting reduction from an accumulator, for any key of an item. *)
Definition countInto {A : Type} (keyOf : A -> string) (acc : Obj) (data : list A)
  : Obj :=
  fold_left
    (fun acc curr =>
       Obj_set acc (keyOf curr) (orZero (Obj_get acc (keyOf curr)) + 1))
    data acc.

Definition AGE_LABELS : list string := ["18-25"; "26-35"; "36-45"; "46-55"; "56+"].

(** Equality of drill-down selections is decidable. *)
#[global] Instance ChartFilter_eq_dec : EqDecision Index.ChartFilter.
Proof. solve_decision. Defined.

(** A click of the sample user with a given age. *)
Definition sample_click (a : Z) : AttributedClick :=
  mergeUser (sample_user "u1" a) "Push" 5.

(** The order the click events are sorted by. *)
Definition byTimestamp (a b : Event) : Prop := e_timestamp a <= e_timestamp b.

(** A transaction made from a click: it has the user id and the channel
    of the click and is later than it. *)
Definition convertedFrom (t : Transaction) (c : AttributedClick) : Prop :=
  t_user_id t = user_id c /\ t_channel t = channel c
  /\ timestamp c < t_timestamp t.

(** The quotient of two integers as a percentage. *)
Definition pct (a b : Z) : Q := (Z_to_Q a / Z_to_Q b * 100)%Q.

(** ** The generator of users and events (lines 6-41) *)

Record Config := mkConfig {
  cfg_users : nat;
  cfg_events : nat;
  cfg_startDate : Z;
  cfg_endDate : Z
}.

(** [MOCK_CONFIG], lines 6-11; [now] is the time value of [new Date()]. *)
Definition MOCK_CONFIG (now : Z) : Config :=
  {| cfg_users := 1000;
     cfg_events := 5000;
     cfg_startDate := 1704067200000;
     cfg_endDate := now |}.

Module Generator.

Section WithSource.

Variable rng : nat -> Q.

(** [arr[i]] for a number [i]; [undefined] stands for the value read at an
    index out of range. *)
Definition at_index {A : Type} (undefined : A) (arr : list A) (i : Z) : A :=
  if i <? 0 then undefined else nth (Z.to_nat i) arr undefined.

(** [randChoice(arr)], line 14. *)
Definition randChoice {A : Type} (undefined : A) (arr : list A) : Draw A :=
  r <~ Math_random rng ;;
  ret (at_index undefined arr (Qfloor (r * inject_Z (Z.of_nat (length arr))))).

Definition SEND_COUNTRIES : list string :=
  ["UK"; "USA"; "Germany"; "France"; "Canada"].
Definition GENDERS : list string := ["Male"; "Female"; "Other"].
Definition RECEIVE_COUNTRIES : list string :=
  ["Nigeria"; "Pakistan"; "India"; "Ghana"; "Philippines"].
Definition CUSTOMER_TYPES : list string := ["active"; "dormant"; "churned"].
Definition DEVICES : list string := ["iOS"; "Android"].
Definition PLATFORMS : list string := ["app"; "website"].

(** The body of the loop of lines 18-30. *)
Definition genUser (i : nat) : Draw User :=
  sendCountry <~ randChoice "undefined" SEND_COUNTRIES ;;
  g <~ randChoice "undefined" GENDERS ;;
  a <~ rand rng 18 65 ;;
  receiveCountry <~ randChoice "undefined" RECEIVE_COUNTRIES ;;
  customerType <~ randChoice "undefined" CUSTOMER_TYPES ;;
  device <~ randChoice "undefined" DEVICES ;;
  platform <~ randChoice "undefined" PLATFORMS ;;
  ret {| u_user_id := "user_" ++ pretty (Z.of_nat i);
         u_gender := g;
         u_age := a;
         u_send_country := sendCountry;
         u_receive_country := receiveCountry;
         u_customer_type := customerType;
         u_device_info := device;
         u_platform_type := platform |}.

(** [for (let i = first; i < first + count; i++) users.push(...)]. *)
Fixpoint genUsers (count first : nat) : Draw (list User) :=
  match count with
  | O => ret []
  | S count' =>
      u <~ genUser first ;;
      rest <~ genUsers count' (S first) ;;
      ret (u :: rest)
  end.

(** The body of the loop of lines 33-41. *)
Definition genEvent (cfg : Config) (i : nat) : Draw Event :=
  ts <~ rand rng (cfg_startDate cfg) (cfg_endDate cfg) ;;
  uid <~ rand rng 0 (Z.of_nat (cfg_users cfg) - 1) ;;
  name <~ randChoice "undefined" EVENT_NAMES ;;
  ret {| event_id := "evt_" ++ pretty (Z.of_nat i);
         e_user_id := "user_" ++ pretty uid;
         e_timestamp := ts;
         event_name := name |}.

Fixpoint genEvents (cfg : Config) (count first : nat) : Draw (list Event) :=
  match count with
  | O => ret []
  | S count' =>
      e <~ genEvent cfg first ;;
      rest <~ genEvents cfg count' (S first) ;;
      ret (e :: rest)
  end.

(** The users and events of [generateMockData], lines 17-41. *)
Definition generateInputs (cfg : Config) : Draw (list User * list Event) :=
  users <~ genUsers (cfg_users cfg) 0 ;;
  events <~ genEvents cfg (cfg_events cfg) 0 ;;
  ret (users, events).

(** [generateMockData], lines 16-82. *)
Definition generateMockData (cfg : Config) : Dataset :=
  let '(users, events, i) := generateInputs cfg 0%nat in
  generateFrom events users rng i.

End WithSource.

End Generator.

(** Draws within the range of [Math.random()]. *)
Definition unitDraws (rng : nat -> Q) : Prop :=
  forall k, (0 <= rng k)%Q /\ (rng k < 1)%Q.

(** A user as the generator makes them. *)
Definition generatedUser (u : User) : Prop :=
  In (u_gender u) Generator.GENDERS
  /\ 18 <= u_age u <= 65
  /\ In (u_send_country u) Generator.SEND_COUNTRIES
  /\ In (u_receive_country u) Generator.RECEIVE_COUNTRIES
  /\ In (u_customer_type u) Generator.CUSTOMER_TYPES
  /\ In (u_device_info u) Generator.DEVICES
  /\ In (u_platform_type u) Generator.PLATFORMS.

Definition userIdOf (k : Z) : string := "user_" ++ pretty k.

(** A small configuration for the samples. *)
Definition sample_config : Config := mkConfig 3 6 100 200.

(** An event as the generator makes them for a configuration. *)
Definition generatedEvent (cfg : Config) (e : Event) : Prop :=
  In (event_name e) EVENT_NAMES
  /\ cfg_startDate cfg <= e_timestamp e <= cfg_endDate cfg
  /\ exists k, (k < cfg_users cfg)%nat /\ e_user_id e = userIdOf (Z.of_nat k).

(** An attributed click of generated users and events. *)
Definition generatedClick (cfg : Config) (c : AttributedClick) : Prop :=
  In (channel c) ["Push"; "Popup"; "Slider"]
  /\ cfg_startDate cfg <= timestamp c <= cfg_endDate cfg
  /\ 18 <= age c <= 65
  /\ In (gender c) Generator.GENDERS
  /\ In (send_country c) Generator.SEND_COUNTRIES
  /\ In (receive_country c) Generator.RECEIVE_COUNTRIES
  /\ In (customer_type c) Generator.CUSTOMER_TYPES
  /\ In (device_info c) Generator.DEVICES
  /\ In (platform_type c) Generator.PLATFORMS.

(** A transaction within the ranges of the simulation for its click. *)
Definition withinRanges (t : Transaction) (c : AttributedClick) : Prop :=
  t_user_id t = user_id c /\ t_channel t = channel c
  /\ 50 <= trx_volume t <= 800
  /\ timestamp c + 60000 <= t_timestamp t <= timestamp c + 86400000.

(** Events in which every user who clicks is also reached. *)
Definition reached_events : list Event :=
  [mkEvent "e0" "u1" 10 "push_clicked"; mkEvent "e1" "u1" 5 "popup_clicked";
   mkEvent "e2" "u2" 7 "slider_clicked"; mkEvent "e4" "u1" 2 "push_received";
   mkEvent "e5" "u2" 3 "popup_received"].

(** The property name of a dimension, as a chart passes it for its
    [dataKey]. *)
Definition dimensionName (d : Dimension) : string :=
  match d with
  | Channel => "channel"
  | Gender => "gender"
  | CustomerType => "customer_type"
  | SendCountry => "send_country"
  | DeviceInfo => "device_info"
  | PlatformType => "platform_type"
  end.

(** The reduction [acc[key] = (acc[key] || 0) + weight] from an
    accumulator, for any key and weight of an item. *)
Definition sumInto {A : Type} (keyOf : A -> string) (weight : A -> Z)
    (acc : Obj) (data : list A) : Obj :=
  fold_left
    (fun acc curr =>
       Obj_set acc (keyOf curr) (orZero (Obj_get acc (keyOf curr)) + weight curr))
    data acc.

(** The sum of the weights of the items of key [k]. *)
Definition weightOf {A : Type} (keyOf : A -> string) (weight : A -> Z)
    (k : string) (data : list A) : Z :=
  fold_right Z.add 0
    (List.map weight (List.filter (fun x => String.eqb (keyOf x) k) data)).

(** The sum of the values of an object. *)
Definition sumValues (o : Obj) : Z := fold_right Z.add 0 (List.map snd o).

(** ** Select options and bar charts *)

(** [['all', ...Array.from(new Set(initialClickData.map(d => d[key])))]]
    (index.tsx, lines 299-301; part_000, lines 216-217); the values of a
    [Set] come out in the order in which they were first added. *)
Definition uniqueOptions (key : Dimension)
    (initialClickData : list AttributedClick) : list string :=
  "all" :: firstSeen [] (List.map (field key) initialClickData).

(** [BarChart] (index.tsx, lines 105-145; part_000, lines 96-126, without
    the selection). *)
Module BarChart.

(** [Math.max(0, ...Object.values(data))] *)
Definition maxValue (data : Obj) : Z := fold_right Z.max 0 (List.map snd data).

(** The percentage in the [height] of a bar. *)
Definition height (maxValue value : Z) : Q :=
  if 0 <? maxValue then (Z_to_Q value / Z_to_Q maxValue * 100)%Q else 0%Q.

(** [activeFilter && activeFilter.category === dataKey
     && activeFilter.value === key] *)
Definition isSelected (activeFilter : option Index.ChartFilter)
    (dataKey key : string) : bool :=
  match activeFilter with
  | Some cf =>
      (String.eqb (Index.category cf) dataKey
       && String.eqb (Index.value cf) key)%bool
  | None => false
  end.

Record Bar := mkBar {
  bar_key : string;
  bar_height : Q;
  bar_selected : bool
}.

(** [entries.map(([key, value], index) => ...)] *)
Definition bars (data : Obj) (dataKey : string)
    (activeFilter : option Index.ChartFilter) : list Bar :=
  List.map
    (fun kv => {| bar_key := fst kv;
                  bar_height := height (maxValue data) (snd kv);
                  bar_selected := isSelected activeFilter dataKey (fst kv) |})
    data.

End BarChart.

(** ** The data model of the specification *)

(** The names of the click events, each with its channel. *)
Definition CLICK_CHANNELS : list (string * string) :=
  [("push_clicked", "Push"); ("popup_clicked", "Popup");
   ("slider_clicked", "Slider")].

(** The customer types, each with the label index.tsx shows for it. *)
Definition CUSTOMER_TYPE_LABELS : list (string * string) :=
  [("active", "Active"); ("dormant", "Dormant"); ("churned", "Churned")].

(** The property names an object inherits from [Object.prototype]. *)
Definition OBJECT_PROTOTYPE_NAMES : list string :=
  ["constructor"; "hasOwnProperty"; "isPrototypeOf"; "propertyIsEnumerable";
   "toLocaleString"; "toString"; "valueOf"; "__proto__";
   "__defineGetter__"; "__defineSetter__"; "__lookupGetter__";
   "__lookupSetter__"].

(** A property name that a plain object lists where it was set first and
    that is absent until it is set: not a string of digits (an array
    index) and not a name of [Object.prototype]. *)
Definition ordinaryKey (s : string) : bool :=
  (negb (negb (String.eqb s EmptyString) && allDigits s)
   && negb (existsb (String.eqb s) OBJECT_PROTOTYPE_NAMES))%bool.

(** A click whose grouped values are ordinary property names and whose
    customer type is one of the data model. *)
Definition ordinaryClick (c : AttributedClick) : Prop :=
  ordinaryKey (channel c) = true /\ ordinaryKey (gender c) = true
  /\ ordinaryKey (send_country c) = true /\ ordinaryKey (device_info c) = true
  /\ ordinaryKey (platform_type c) = true
  /\ In (customer_type c) (List.map fst CUSTOMER_TYPE_LABELS).

(** The grouped count of a list of values: the distinct values in the
    order in which they are met first, each with the number of its
    occurrences. *)
Definition grouped (values : list string) : Obj :=
  List.map (fun k => (k, occurrences k values)) (firstSeen [] values).


(** * Properties *)

(** ** The stable sort *)

Lemma insertByTimestamp_perm x s : Permutation (x :: s) (insertByTimestamp x s).
Proof.
  induction s as [|y s IH]; simpl; [reflexivity|].
  destruct (e_timestamp x <=? e_timestamp y); [reflexivity|].
  rewrite perm_swap. now apply perm_skip.
Qed.

Lemma sortByTimestamp_perm l : Permutation l (sortByTimestamp l).
Proof.
  induction l as [|x l IH]; simpl; [constructor|].
  rewrite <- insertByTimestamp_perm. now apply perm_skip.
Qed.

Lemma insertByTimestamp_sorted x s :
  StronglySorted byTimestamp s -> StronglySorted byTimestamp (insertByTimestamp x s).
Proof.
  induction 1 as [|y s Hs IH Hy]; simpl.
  - repeat constructor.
  - destruct (Z.leb_spec (e_timestamp x) (e_timestamp y)) as [Hle|Hgt].
    + constructor; [now constructor|].
      constructor; [exact Hle|].
      eapply List.Forall_impl; [|exact Hy].
      unfold byTimestamp. intros a Ha. lia.
    + constructor; [exact IH|].
      eapply Permutation_Forall; [apply insertByTimestamp_perm|].
      constructor; [unfold byTimestamp; lia | exact Hy].
Qed.

Lemma sortByTimestamp_sorted l : StronglySorted byTimestamp (sortByTimestamp l).
Proof.
  induction l as [|x l IH]; simpl; [constructor|].
  now apply insertByTimestamp_sorted.
Qed.

(** Stability: events of one timestamp keep their relative order. *)
Lemma insertByTimestamp_stable t x s :
  StronglySorted byTimestamp s ->
  List.filter (fun e => e_timestamp e =? t) (insertByTimestamp x s)
  = List.filter (fun e => e_timestamp e =? t) (x :: s).
Proof.
  induction 1 as [|y s Hs IH Hy]; [reflexivity|].
  cbn [insertByTimestamp].
  destruct (Z.leb_spec (e_timestamp x) (e_timestamp y)) as [Hle|Hgt]; [reflexivity|].
  cbn [List.filter] in *. rewrite IH.
  destruct (Z.eqb_spec (e_timestamp y) t) as [Hyt|Hyt];
    destruct (Z.eqb_spec (e_timestamp x) t) as [Hxt|Hxt]; try reflexivity.
  lia.
Qed.

Lemma sortByTimestamp_stable t l :
  List.filter (fun e => e_timestamp e =? t) (sortByTimestamp l)
  = List.filter (fun e => e_timestamp e =? t) l.
Proof.
  induction l as [|x l IH]; [reflexivity|].
  cbn [sortByTimestamp].
  rewrite insertByTimestamp_stable by apply sortByTimestamp_sorted.
  cbn [List.filter]. now rewrite IH.
Qed.

(** The first event that satisfies [p] after an insertion. *)
Lemma find_insertByTimestamp (p : Event -> bool) x s :
  StronglySorted byTimestamp s ->
  List.find p (insertByTimestamp x s)
  = if p x then
      match List.find p s with
      | Some y => if e_timestamp x <=? e_timestamp y then Some x else Some y
      | None => Some x
      end
    else List.find p s.
Proof.
  induction 1 as [|y s Hs IH Hy]; cbn [insertByTimestamp List.find].
  - now destruct (p x).
  - destruct (Z.leb_spec (e_timestamp x) (e_timestamp y)) as [Hle|Hgt].
    + cbn [List.find]. destruct (p x); [|reflexivity].
      destruct (p y).
      * destruct (Z.leb_spec (e_timestamp x) (e_timestamp y)); [reflexivity|lia].
      * destruct (List.find p s) as [z|] eqn:Hz; [|reflexivity].
        apply find_some in Hz as [Hz _].
        rewrite List.Forall_forall in Hy. specialize (Hy z Hz). unfold byTimestamp in Hy.
        destruct (Z.leb_spec (e_timestamp x) (e_timestamp z)); [reflexivity|lia].
    + cbn [List.find]. destruct (p y) eqn:Hpy.
      * destruct (p x); [|reflexivity].
        destruct (Z.leb_spec (e_timestamp x) (e_timestamp y)); [lia|reflexivity].
      * exact IH.
Qed.

Lemma find_sortByTimestamp (p : Event -> bool) l :
  List.find p (sortByTimestamp l) = firstMin (List.filter p l).
Proof.
  induction l as [|x l IH]; [reflexivity|].
  cbn [sortByTimestamp List.filter].
  rewrite find_insertByTimestamp by apply sortByTimestamp_sorted.
  rewrite IH. now destruct (p x).
Qed.

Lemma firstMin_None l : firstMin l = None -> l = [].
Proof.
  destruct l as [|x l]; [reflexivity|]. simpl.
  destruct (firstMin l); [destruct (_ <=? _)|]; discriminate.
Qed.

(** [firstMin] splits the list around the event it returns: the events
    before it are strictly later, those after it are not earlier. *)
Lemma firstMin_Some l e :
  firstMin l = Some e ->
  exists pre post,
    l = pre ++ e :: post
    /\ Forall (fun e' => e_timestamp e < e_timestamp e') pre
    /\ Forall (fun e' => e_timestamp e <= e_timestamp e') post.
Proof.
  revert e. induction l as [|x l IH]; intros e; [discriminate|].
  cbn [firstMin]. destruct (firstMin l) as [y|] eqn:Hy.
  - destruct (IH y eq_refl) as (pre & post & -> & Hpre & Hpost).
    destruct (Z.leb_spec (e_timestamp x) (e_timestamp y)) as [Hle|Hgt];
      intros [= <-].
    + exists [], (pre ++ y :: post). repeat split; [constructor|].
      apply List.Forall_app. split.
      * eapply List.Forall_impl; [|exact Hpre]. simpl. intros; lia.
      * constructor; [exact Hle|].
        eapply List.Forall_impl; [|exact Hpost]. simpl. intros; lia.
    + exists (x :: pre), post. repeat split; [|exact Hpost].
      constructor; [lia|exact Hpre].
  - intros [= <-]. apply firstMin_None in Hy as ->.
    exists [], []. repeat split; constructor.
Qed.

(** ** The attribution walk *)

Lemma Map_set_fresh (m : ClickMap) k v :
  Map_has m k = false -> Map_set m k v = m ++ [(k, v)].
Proof.
  induction m as [|[k' v'] m IH]; simpl; [reflexivity|].
  destruct (String.eqb k' k); simpl; [discriminate|].
  intros H. now rewrite IH.
Qed.

Lemma Map_has_keys (m : ClickMap) k :
  Map_has m k = existsb (fun k' => String.eqb k' k) (List.map fst m).
Proof.
  induction m as [|[k' v'] m IH]; simpl; [reflexivity|]. now rewrite IH.
Qed.

Lemma fold_attributeStep users l (m : ClickMap) :
  fold_left (attributeStep users) l m = m ++ newEntries users (List.map fst m) l.
Proof.
  revert m. induction l as [|e l IH]; intros m; cbn [fold_left newEntries].
  - now rewrite app_nil_r.
  - rewrite IH. unfold attributeStep. rewrite <- Map_has_keys.
    destruct (Map_has m (e_user_id e)) eqn:Hhas; cbn [negb]; [reflexivity|].
    destruct (findUser users (e_user_id e)) as [u|]; [|reflexivity].
    rewrite Map_set_fresh by exact Hhas.
    rewrite List.map_app, <- app_assoc. reflexivity.
Qed.

Lemma findUser_id users uid u : findUser users uid = Some u -> u_user_id u = uid.
Proof.
  unfold findUser. intros H. apply find_some in H as [_ H].
  now apply String.eqb_eq.
Qed.

Lemma newEntries_key users seen l kv :
  In kv (newEntries users seen l) -> user_id (snd kv) = fst kv.
Proof.
  revert seen. induction l as [|e l IH]; intros seen; cbn [newEntries]; [intros []|].
  destruct (existsb _ seen); [apply IH|].
  destruct (findUser users (e_user_id e)) as [u|] eqn:Hu; [|apply IH].
  intros [<-|H]; [|now apply IH in H].
  simpl. now apply (findUser_id users).
Qed.

(** The entries added for one user id: none when the id is known already,
    when no user record has it or when no event carries it, and otherwise
    the one built from the first event that carries it. *)
Lemma newEntries_of_user users uid seen l :
  List.filter (fun kv => String.eqb (fst kv) uid) (newEntries users seen l)
  = if existsb (fun k => String.eqb k uid) seen then []
    else match findUser users uid,
               List.find (fun e => String.eqb (e_user_id e) uid) l with
         | Some u, Some e =>
             [(uid, mergeUser u (channelOf (event_name e)) (e_timestamp e))]
         | _, _ => []
         end.
Proof.
  revert seen. induction l as [|e l IH]; intros seen; cbn [newEntries List.find].
  - cbn. destruct (existsb _ seen); [reflexivity|].
    now destruct (findUser users uid).
  - destruct (String.eqb_spec (e_user_id e) uid) as [He|He].
    + subst uid.
      destruct (existsb (fun k => String.eqb k (e_user_id e)) seen) eqn:Hseen.
      * rewrite IH, Hseen. reflexivity.
      * destruct (findUser users (e_user_id e)) as [u|] eqn:Hu.
        -- cbn [List.filter fst]. rewrite String.eqb_refl, IH.
           rewrite existsb_app. cbn. rewrite String.eqb_refl, orb_true_r.
           reflexivity.
        -- rewrite IH, Hseen. reflexivity.
    + destruct (existsb (fun k => String.eqb k (e_user_id e)) seen) eqn:Hseen;
        [apply IH|].
      destruct (findUser users (e_user_id e)) as [u|] eqn:Hu; [|apply IH].
      cbn [List.filter fst].
      destruct (String.eqb_spec (e_user_id e) uid) as [|_]; [contradiction|].
      rewrite IH, existsb_app. cbn.
      destruct (String.eqb_spec (e_user_id e) uid) as [|_]; [contradiction|].
      now rewrite orb_false_r.
Qed.

Lemma filter_map_snd {K V : Type} (f : V -> bool) (g : K * V -> bool)
    (l : list (K * V)) :
  (forall kv, In kv l -> f (snd kv) = g kv) ->
  List.filter f (List.map snd l) = List.map snd (List.filter g l).
Proof.
  induction l as [|kv l IH]; intros H; [reflexivity|].
  cbn [List.map List.filter]. rewrite (H kv) by now left.
  rewrite IH by (intros; apply H; now right).
  now destruct (g kv).
Qed.

(** The attributed clicks of one user id, in closed form. *)
Lemma attribute_of_user events users uid :
  List.filter (fun c => String.eqb (user_id c) uid) (attribute events users)
  = match findUser users uid, firstMin (clicksOfUser uid events) with
    | Some u, Some e =>
        [mergeUser u (channelOf (event_name e)) (e_timestamp e)]
    | _, _ => []
    end.
Proof.
  unfold attribute, attributedClicks, Map_values.
  rewrite fold_attributeStep. cbn [List.map app].
  rewrite (filter_map_snd _ (fun kv => String.eqb (fst kv) uid)).
  - rewrite newEntries_of_user. cbn [existsb].
    unfold clickEvents. rewrite find_sortByTimestamp. fold (clicksOfUser uid events).
    destruct (findUser users uid); [|reflexivity].
    now destruct (firstMin (clicksOfUser uid events)).
  - intros kv Hkv. apply newEntries_key in Hkv. now rewrite Hkv.
Qed.

(** ** The channel of a click event *)

Lemma prefix_cons a s b t :
  String.prefix (String a s) (String b t)
  = if ascii_dec a b then String.prefix s t else false.
Proof. reflexivity. Qed.

Lemma append_cons c s t : (String c s ++ t = String c (s ++ t))%string.
Proof. reflexivity. Qed.

Lemma append_nil t : (EmptyString ++ t = t)%string.
Proof. reflexivity. Qed.

Ltac decide_chars H :=
  rewrite ?append_cons, ?append_nil, ?prefix_cons in H;
  repeat match type of H with
         | context [ascii_dec ?a ?b] =>
             let E := fresh "E" in
             destruct (ascii_dec a b) as [E|E];
             [try discriminate E; subst | try discriminate H]
         end.

(** ["_clicked"] has no border: it starts a string that ends with it only
    where the string starts. *)
Lemma prefix_clicked_app p :
  String.prefix "_clicked" (p ++ "_clicked")%string = true ->
  p = EmptyString \/ String.prefix "_clicked" p = true.
Proof.
  intros H.
  destruct p as [|c0 p]; [now left|]. decide_chars H.
  destruct p as [|c1 p]; decide_chars H.
  destruct p as [|c2 p]; decide_chars H.
  destruct p as [|c3 p]; decide_chars H.
  destruct p as [|c4 p]; decide_chars H.
  destruct p as [|c5 p]; decide_chars H.
  destruct p as [|c6 p]; decide_chars H.
  destruct p as [|c7 p]; decide_chars H.
  right. rewrite !prefix_cons.
  repeat (destruct (ascii_dec _ _); [|congruence]). now destruct p.
Qed.

Lemma replace_clicked_suffix p :
  JsString.includes p "_clicked" = false ->
  JsString.replace (p ++ "_clicked")%string "_clicked" EmptyString = p.
Proof.
  induction p as [|c p IH]; [reflexivity|].
  cbn [JsString.includes]. intros H.
  destruct (String.prefix "_clicked" (String c p)) eqn:Hp; [discriminate|].
  rewrite append_cons. cbn [JsString.replace].
  destruct (String.prefix "_clicked" (String c (p ++ "_clicked"))) eqn:Hq.
  - rewrite <- append_cons in Hq.
    apply prefix_clicked_app in Hq as [Hq|Hq]; [discriminate|congruence].
  - now rewrite IH.
Qed.

(** Where ["_clicked"] occurs in a name as its suffix only, the channel is
    the name without the suffix, capitalized. *)
Lemma channelOf_suffix p :
  JsString.includes p "_clicked" = false ->
  channelOf (p ++ "_clicked")%string = JsString.capitalize p.
Proof.
  intros H. unfold channelOf. now rewrite replace_clicked_suffix.
Qed.

(** A name that ends with ["_clicked"] is one of a click event. *)
Lemma includes_suffix p : JsString.includes (p ++ "_clicked")%string "_clicked" = true.
Proof.
  induction p as [|c p IH]; [reflexivity|].
  rewrite append_cons. cbn [JsString.includes].
  now destruct (String.prefix _ _).
Qed.

(** ** First-click attribution *)

(** ** Names that contain a string *)

Lemma prefix_app_l p : forall b, String.prefix p (p ++ b)%string = true.
Proof.
  induction p as [|c p IH]; intros b; [now destruct b|].
  rewrite append_cons, prefix_cons. now destruct (ascii_dec c c).
Qed.

Lemma prefix_split p : forall s,
  String.prefix p s = true -> exists b, s = (p ++ b)%string.
Proof.
  induction p as [|c p IH]; intros s H; [now exists s|].
  destruct s as [|c' s]; [discriminate H|].
  rewrite prefix_cons in H. destruct (ascii_dec c c') as [<-|]; [|discriminate H].
  destruct (IH s H) as [b ->]. now exists b.
Qed.

Lemma includes_unfold s sub :
  JsString.includes s sub
  = if String.prefix sub s then true
    else match s with
         | EmptyString => false
         | String _ s' => JsString.includes s' sub
         end.
Proof. now destruct s. Qed.

(** [s.includes(sub)] holds of the strings that have [sub] somewhere. *)
Lemma includes_iff s sub :
  JsString.includes s sub = true <-> exists a b, s = (a ++ sub ++ b)%string.
Proof.
  split.
  - induction s as [|c s IH]; rewrite includes_unfold;
      destruct (String.prefix sub _) eqn:Hp; intros H.
    + apply prefix_split in Hp as [b Hb]. now exists EmptyString, b.
    + discriminate H.
    + apply prefix_split in Hp as [b Hb]. now exists EmptyString, b.
    + destruct (IH H) as (a & b & ->). now exists (String c a), b.
  - intros (a & b & ->). induction a as [|c a IH]; rewrite includes_unfold.
    + now rewrite append_nil, prefix_app_l.
    + rewrite append_cons. now destruct (String.prefix sub _).
Qed.

Lemma clicksOfUser_clicked uid events e :
  In e (clicksOfUser uid events) -> isClicked e = true.
Proof.
  unfold clicksOfUser. rewrite !filter_In. tauto.
Qed.

(** The channel of the click events of the data model. *)
Lemma channelOf_documented name :
  In name EVENT_NAMES -> JsString.includes name "_clicked" = true ->
  In (name, channelOf name) CLICK_CHANNELS.
Proof.
  unfold EVENT_NAMES. cbn [In].
  intros [<-|[<-|[<-|[<-|[<-|[<-|[]]]]]]] H;
    try discriminate H; cbn; tauto.
Qed.

(** C1. For every event list, user list and user id, where the click
    events are the events whose name has [_clicked] in it (of the names of
    the data model: push_clicked, popup_clicked and slider_clicked): the
    attributed clicks of that id are none when no user record has the id
    (its click events are skipped) or when the id has no click event, and
    otherwise exactly one, built from the record of the user and from the
    earliest click event of the id: its timestamp is the least timestamp
    among these click events (the first of them in the order of the event
    list when several have it), and its channel is Push, Popup or Slider
    as the event is named push_clicked, popup_clicked or slider_clicked. *)
Theorem attribution_first_touch (events : list Event) (users : list User)
    (uid : string) :
  let clicks :=
    List.filter (fun e => String.eqb (e_user_id e) uid)
      (List.filter isClicked events) in
  let mine :=
    List.filter (fun c => String.eqb (user_id c) uid) (attribute events users) in
  (forall e, isClicked e = true
             <-> exists a b, event_name e = (a ++ "_clicked" ++ b)%string)
  /\ (forall e, In (event_name e) EVENT_NAMES ->
                (isClicked e = true
                 <-> In (event_name e)
                       ["push_clicked"; "popup_clicked"; "slider_clicked"]))
  /\ (findUser users uid = None -> mine = [])
  /\ (clicks = [] -> mine = [])
  /\ (forall u, findUser users uid = Some u -> clicks <> [] ->
      exists e pre post ch,
        clicks = pre ++ e :: post
        /\ Forall (fun e' => e_timestamp e < e_timestamp e') pre
        /\ Forall (fun e' => e_timestamp e <= e_timestamp e') post
        /\ mine = [mergeUser u ch (e_timestamp e)]
        /\ (In (event_name e) EVENT_NAMES ->
            In (event_name e, ch) CLICK_CHANNELS)
        /\ Forall (fun c => user_id c = uid /\ channel c = ch
                            /\ timestamp c = e_timestamp e
                            /\ Forall (fun e' => timestamp c <= e_timestamp e')
                                 clicks) mine).
Proof.
  cbv zeta. fold (clicksOfUser uid events). rewrite attribute_of_user.
  split; [|split; [|split; [|split]]].
  - intros e. apply includes_iff.
  - intros e. unfold isClicked, EVENT_NAMES. cbn [In].
    intros [<-|[<-|[<-|[<-|[<-|[<-|[]]]]]]]; cbn; split; intros H;
      try reflexivity; try discriminate H; try tauto;
      repeat (destruct H as [H|H]; [discriminate H|]); destruct H.
  - now intros ->.
  - intros ->. now destruct (findUser users uid).
  - intros u Hu Hne. rewrite Hu.
    destruct (firstMin (clicksOfUser uid events)) as [e|] eqn:He;
      [|apply firstMin_None in He; contradiction].
    destruct (firstMin_Some _ _ He) as (pre & post & Heq & Hpre & Hpost).
    exists e, pre, post, (channelOf (event_name e)).
    assert (Hin : In e (clicksOfUser uid events))
      by (rewrite Heq; apply in_elt).
    apply clicksOfUser_clicked in Hin as Hclick.
    repeat split; try assumption.
    + intros Hname. now apply channelOf_documented.
    + constructor; [|constructor]. cbn. repeat split.
      * now apply (findUser_id users).
      * rewrite Heq. apply List.Forall_app. split.
        -- eapply List.Forall_impl; [|exact Hpre]. cbn. intros; lia.
        -- constructor; [lia|exact Hpost].
Qed.

(** The scenario of the specification: of the clicks of [u1], push at
    time 10 and popup at time 5, the attributed one is the popup click. *)
Lemma attribution_first_touch_witness :
  findUser sample_users "u1" = Some (sample_user "u1" 25)
  /\ List.filter (fun e => String.eqb (e_user_id e) "u1")
       (List.filter isClicked sample_events)
     = [mkEvent "e0" "u1" 10 "push_clicked"; mkEvent "e1" "u1" 5 "popup_clicked"]
  /\ List.filter (fun c => String.eqb (user_id c) "u1")
       (attribute sample_events sample_users)
     = [mergeUser (sample_user "u1" 25) "Popup" 5].
Proof.
  split; [reflexivity|]. split; [reflexivity|].
  destruct (proj2 (proj2 (proj2 (proj2
              (attribution_first_touch sample_events sample_users "u1"))))
              (sample_user "u1" 25) eq_refl)
    as (e & pre & post & ch & Heq & Hpre & Hpost & Hmine & Hch & _).
  - discriminate.
  - rewrite Hmine.
    change (List.filter (fun e => String.eqb (e_user_id e) "u1")
              (List.filter isClicked sample_events))
      with [mkEvent "e0" "u1" 10 "push_clicked";
            mkEvent "e1" "u1" 5 "popup_clicked"] in Heq.
    destruct pre as [|x [|y pre]]; cbn [app] in Heq.
    + injection Heq as <- <-.
      apply List.Forall_inv in Hpost. cbn in Hpost. lia.
    + injection Heq as <- <- <-.
      destruct Hch as [Hch|[Hch|[Hch|[]]]];
        [cbn; tauto|discriminate Hch|injection Hch as <-|discriminate Hch].
      reflexivity.
    + injection Heq as _ _ Heq. now destruct pre.
Defined.

Example attribution_scenario :
  List.map (fun c => (user_id c, channel c, timestamp c))
    (attribute sample_events sample_users)
  = [("u1", "Popup", 5); ("u2", "Slider", 7)].
Proof. reflexivity. Qed.

(** ** Conversion simulation *)

(** One click: a draw decides, and a conversion takes two more draws. *)
Lemma simulateClick_unfold rng (c : AttributedClick) (i : nat) :
  simulateClick rng c i
  = if Qltb (rng i) (4 # 10) then
      (Some {| t_user_id := user_id c;
               t_channel := channel c;
               trx_volume := Qfloor (rng (S i) * inject_Z (800 - 50 + 1)) + 50;
               t_timestamp :=
                 timestamp c
                 + (Qfloor (rng (S (S i))
                            * inject_Z (1000 * 60 * 60 * 24 - 1000 * 60 + 1))
                    + 1000 * 60) |},
       S (S (S i)))
    else (None, S i).
Proof.
  unfold simulateClick, rand, bind, Math_random, ret.
  now destruct (Qltb (rng i) (4 # 10)).
Qed.

Lemma simulateFrom_cons rng acc c rest i :
  simulateFrom rng acc (c :: rest) i
  = simulateFrom rng
      (match fst (simulateClick rng c i) with
       | Some t => acc ++ [t]
       | None => acc
       end) rest (snd (simulateClick rng c i)).
Proof.
  cbn [simulateFrom]. unfold bind at 1.
  now destruct (simulateClick rng c i).
Qed.

Lemma Qfloor_scaled_nonneg (r : Q) (n : Z) :
  (0 <= r)%Q -> 0 <= n -> 0 <= Qfloor (r * inject_Z n).
Proof.
  intros Hr Hn. change 0 with (Qfloor 0). apply Qfloor_resp_le.
  apply Qmult_le_0_compat; [exact Hr|].
  change 0%Q with (inject_Z 0). now rewrite <- Zle_Qle.
Qed.

(** The transaction of a click, when there is one, is made from it. *)
Lemma simulateClick_Some rng c i t :
  (forall k, (0 <= rng k)%Q) ->
  fst (simulateClick rng c i) = Some t -> convertedFrom t c.
Proof.
  intros Hrng. rewrite simulateClick_unfold.
  destruct (Qltb (rng i) (4 # 10)); [|discriminate].
  cbn [fst]. intros [= <-]. unfold convertedFrom.
  cbn [t_user_id t_channel t_timestamp]. repeat split.
  apply Z.lt_add_pos_r, Z.add_nonneg_pos; [|reflexivity].
  now apply (Qfloor_scaled_nonneg (rng (S (S i)))
               (1000 * 60 * 60 * 24 - 1000 * 60 + 1)).
Qed.

(** The simulation appends, for a subsequence of the clicks, one
    transaction each, in the order of the clicks. *)
Lemma simulateFrom_picks rng (R : Transaction -> AttributedClick -> Prop)
    (HR : forall c i t, fst (simulateClick rng c i) = Some t -> R t c)
    clicks acc i :
  exists new picked,
    fst (simulateFrom rng acc clicks i) = acc ++ new
    /\ sublist picked clicks
    /\ Forall2 R new picked.
Proof.
  revert acc i. induction clicks as [|c rest IH]; intros acc i.
  - exists [], []. cbn. rewrite app_nil_r. repeat split; constructor.
  - rewrite simulateFrom_cons.
    destruct (fst (simulateClick rng c i)) as [t|] eqn:Ht.
    + destruct (IH (acc ++ [t]) (snd (simulateClick rng c i)))
        as (new & picked & Heq & Hsub & Hall).
      exists (t :: new), (c :: picked). rewrite Heq, <- app_assoc.
      repeat split; [now constructor|].
      constructor; [|exact Hall]. now apply (HR c i).
    + destruct (IH acc (snd (simulateClick rng c i)))
        as (new & picked & Heq & Hsub & Hall).
      exists new, picked. repeat split; [exact Heq| |exact Hall].
      now constructor.
Qed.

Lemma simulateClick_user rng c i t :
  fst (simulateClick rng c i) = Some t -> t_user_id t = user_id c.
Proof.
  rewrite simulateClick_unfold.
  destruct (Qltb (rng i) (4 # 10)); [|discriminate].
  cbn [fst]. now intros [= <-].
Qed.

Lemma sublist_In {A : Type} (l1 l2 : list A) x :
  sublist l1 l2 -> In x l1 -> In x l2.
Proof.
  induction 1 as [|y l1 l2 _ IH|y l1 l2 _ IH]; cbn; [tauto| |]; intuition.
Qed.

Lemma sublist_map {A B : Type} (f : A -> B) (l1 l2 : list A) :
  sublist l1 l2 -> sublist (List.map f l1) (List.map f l2).
Proof. induction 1; cbn; now constructor. Qed.

Lemma picked_ids new picked :
  Forall2 (fun t c => t_user_id t = user_id c) new picked ->
  List.map t_user_id new = List.map user_id picked.
Proof.
  induction 1 as [|t c new picked Hid _ IH]; cbn; [reflexivity|].
  now rewrite Hid, IH.
Qed.

Lemma convertedFrom_source new picked t :
  Forall2 convertedFrom new picked -> In t new ->
  exists c, In c picked /\ convertedFrom t c.
Proof.
  induction 1 as [|t' c new picked Htc _ IH]; cbn; [intros []|].
  intros [<-|Hin].
  - exists c. split; [now left|exact Htc].
  - destruct (IH Hin) as (c' & Hc' & Ht). exists c'. split; [now right|exact Ht].
Qed.

(** ** No user is attributed twice *)

Lemma NoDup_map_by_count {A : Type} (f : A -> string) (l : list A) :
  (forall x,
     (length (List.filter (fun a => String.eqb (f a) x) l) <= 1)%nat) ->
  NoDup (List.map f l).
Proof.
  induction l as [|a l IH]; intros H; cbn; [constructor|].
  constructor.
  - intros Hin. apply list_elem_of_In, in_map_iff in Hin as (b & Hb & Hin).
    specialize (H (f a)). cbn in H. rewrite String.eqb_refl in H. cbn in H.
    assert (Hb' : In b (List.filter (fun a0 => String.eqb (f a0) (f a)) l)).
    { apply filter_In. split; [exact Hin|]. now apply String.eqb_eq. }
    destruct (List.filter (fun a0 => String.eqb (f a0) (f a)) l);
      [destruct Hb'|cbn in H; lia].
  - apply IH. intros x. specialize (H x). cbn in H.
    destruct (String.eqb (f a) x); cbn in H; lia.
Qed.

Lemma attribute_NoDup events users :
  NoDup (List.map user_id (attribute events users)).
Proof.
  apply NoDup_map_by_count. intros uid. rewrite attribute_of_user.
  destruct (findUser users uid); [|cbn; lia].
  destruct (firstMin (clicksOfUser uid events)); cbn; lia.
Qed.

Lemma transactions_NoDup events users rng i :
  NoDup (List.map t_user_id (transactions (generateFrom events users rng i))).
Proof.
  destruct (simulateFrom_picks rng _ (simulateClick_user rng)
              (attribute events users) [] i)
    as (new & picked & Heq & Hsub & Hall).
  assert (Ht : transactions (generateFrom events users rng i) = new)
    by exact Heq.
  rewrite Ht, (picked_ids _ _ Hall).
  eapply sublist_NoDup; [apply attribute_NoDup|apply sublist_map, Hsub].
Qed.

(** C4. For every dataset the generator derives from events and users
    with draws that are not negative: the transactions are at most as
    many as the attributed clicks; they are made, in order, from a
    subsequence of the attributed clicks, one from each click of it, with
    the user id and the channel of that click and a timestamp strictly
    after it; no two transactions have the same user id. *)
Theorem conversion_conservation (events : list Event) (users : list User)
    (rng : nat -> Q) (i : nat) :
  (forall k, (0 <= rng k)%Q) ->
  let d := generateFrom events users rng i in
  (length (transactions d) <= length (clickData d))%nat
  /\ (exists picked,
        sublist picked (clickData d)
        /\ Forall2 convertedFrom (transactions d) picked)
  /\ (forall t, In t (transactions d) ->
        exists c, In c (clickData d)
                  /\ t_user_id t = user_id c
                  /\ timestamp c < t_timestamp t)
  /\ NoDup (List.map t_user_id (transactions d)).
Proof.
  intros Hrng d.
  destruct (simulateFrom_picks rng convertedFrom
              (fun c k t => simulateClick_Some rng c k t Hrng) (clickData d) [] i)
    as (new & picked & Heq & Hsub & Hall).
  split; [|split; [|split]]; [| | |apply transactions_NoDup].
  all: assert (Ht : transactions d = new) by exact Heq; rewrite Ht.
  - rewrite (Forall2_length _ _ _ Hall). now apply sublist_length.
  - now exists picked.
  - intros t Hin.
    destruct (convertedFrom_source _ _ _ Hall Hin) as (c & Hc & Hid & _ & Hts).
    exists c. split; [now apply (sublist_In picked)|]. now split.
Qed.

Lemma conversion_conservation_witness :
  (forall k, (0 <= sample_rng k)%Q)
  /\ let d := generateFrom sample_events sample_users sample_rng 0 in
     (length (transactions d) <= length (clickData d))%nat
     /\ (exists picked,
           sublist picked (clickData d)
           /\ Forall2 convertedFrom (transactions d) picked)
     /\ (forall t, In t (transactions d) ->
           exists c, In c (clickData d)
                     /\ t_user_id t = user_id c
                     /\ timestamp c < t_timestamp t)
     /\ NoDup (List.map t_user_id (transactions d)).
Proof.
  assert (H : forall k, (0 <= sample_rng k)%Q).
  { intros k. unfold sample_rng. destruct (Nat.even k); discriminate. }
  split; [exact H|].
  exact (conversion_conservation sample_events sample_users sample_rng 0 H).
Defined.

(** ** The draws the simulation reads *)






(** ** Repeated runs *)







Example isoDate_samples :
  List.map isoDate ["1970-01-01"; "1970-01-02"; "2024-01-01"; EmptyString; "tomorrow"]
  = [Some 0; Some 86400000; Some 1704067200000; None; None].
Proof. reflexivity. Qed.

(** ** Transaction filtering *)

Lemma has_user_id (x : string) (clicks : list AttributedClick) :
  x ∈ (list_to_set (List.map user_id clicks) : gset string)
  <-> exists c, In c clicks /\ user_id c = x.
Proof.
  rewrite elem_of_list_to_set, list_elem_of_In, in_map_iff.
  split; intros (c & H1 & H2); exists c; tauto.
Qed.

Lemma filteredTrans_In fc trans t :
  In t (Index.filteredTrans fc trans)
  <-> In t trans /\ exists c, In c fc /\ user_id c = t_user_id t.
Proof.
  unfold Index.filteredTrans. rewrite filter_In, bool_decide_eq_true.
  now rewrite has_user_id.
Qed.

Lemma filteredTrans_nil trans : Index.filteredTrans [] trans = [].
Proof.
  destruct (Index.filteredTrans [] trans) as [|t l] eqn:H; [reflexivity|].
  assert (Ht : In t (Index.filteredTrans [] trans)) by (rewrite H; now left).
  apply filteredTrans_In in Ht as (_ & c & [] & _).
Qed.

(** The early return of part_000 returns what the filter would. *)
Lemma filteredTransactions_eq fd trans :
  Part000.filteredTransactions fd trans = Index.filteredTrans fd trans.
Proof.
  destruct fd as [|c fd]; [now rewrite filteredTrans_nil|].
  now destruct trans.
Qed.

(** C5. For every transaction list, click list and filter state of
    either dashboard: a transaction is in the filtered transactions if
    and only if it is in the transaction list and its user id is the user
    id of a filtered click; the filtered transactions are the transactions
    of such a user id in their order, whatever their own channel, volume
    and timestamp. *)
Theorem transactions_filtered_transitively
    (Date_parse : string -> option Z) (setHours_23_59_59_999 : Z -> Z)
    (f g : gmap string string) (clicks : list AttributedClick)
    (trans : list Transaction) :
  let fc := Index.filteredClicks Date_parse setHours_23_59_59_999 f clicks in
  let fd := Part000.filteredData clicks g in
  let byUser (l : list AttributedClick) (t : Transaction) :=
    existsb (fun c => String.eqb (user_id c) (t_user_id t)) l in
  (forall t, In t (Index.filteredTrans fc trans)
             <-> In t trans /\ exists c, In c fc /\ user_id c = t_user_id t)
  /\ (forall t, In t (Part000.filteredTransactions fd trans)
                <-> In t trans /\ exists c, In c fd /\ user_id c = t_user_id t)
  /\ Index.filteredTrans fc trans = List.filter (byUser fc) trans
  /\ Part000.filteredTransactions fd trans = List.filter (byUser fd) trans.
Proof.
  intros fc fd byUser.
  assert (Hf : forall l, Index.filteredTrans l trans = List.filter (byUser l) trans).
  { intros l. unfold Index.filteredTrans. apply filter_ext. intros t.
    apply eq_true_iff_eq. rewrite bool_decide_eq_true, has_user_id.
    unfold byUser. rewrite existsb_exists.
    split; intros (c & H1 & H2); exists c; split; try assumption;
      now apply String.eqb_eq. }
  split; [|split; [|split]].
  - intros t. apply filteredTrans_In.
  - intros t. rewrite filteredTransactions_eq. apply filteredTrans_In.
  - apply Hf.
  - rewrite filteredTransactions_eq. apply Hf.
Qed.

(** ** Rates *)

Lemma filter_sublist {A : Type} (p : A -> bool) (l : list A) :
  sublist (List.filter p l) l.
Proof.
  induction l as [|x l IH]; cbn; [constructor|].
  destruct (p x); now constructor.
Qed.

(** Transactions of distinct users that pass the filter are at most as
    many as the filtered clicks. *)
Lemma filteredTrans_length fc trans :
  NoDup (List.map t_user_id trans) ->
  (length (Index.filteredTrans fc trans) <= length fc)%nat.
Proof.
  intros Hnd.
  rewrite <- (length_map t_user_id), <- (length_map user_id fc).
  apply submseteq_length, NoDup_submseteq.
  - eapply sublist_NoDup; [exact Hnd|]. apply sublist_map, filter_sublist.
  - intros x Hx. apply list_elem_of_In, in_map_iff in Hx as (t & <- & Ht).
    apply filteredTrans_In in Ht as (_ & c & Hc & Hid).
    apply list_elem_of_In, in_map_iff. now exists c.
Qed.

Lemma pct_le a b c :
  0 < b -> (pct a b <= inject_Z c * 100)%Q <-> a <= c * b.
Proof.
  intros Hb. unfold pct, Z_to_Q, Qle, Qdiv, Qmult, Qinv, inject_Z.
  destruct b as [|p|p]; try lia. cbn.
  rewrite ?Pos.mul_1_r, ?Z.mul_1_r. nia.
Qed.

Lemma pct_nonneg a b : 0 < b -> (0 <= pct a b)%Q <-> 0 <= a.
Proof.
  intros Hb. unfold pct, Z_to_Q, Qle, Qdiv, Qmult, Qinv, inject_Z.
  destruct b as [|p|p]; try lia. cbn.
  rewrite ?Pos.mul_1_r, ?Z.mul_1_r. lia.
Qed.

Lemma pct_zero a b : 0 < b -> (pct a b == 0)%Q <-> a = 0.
Proof.
  intros Hb. unfold pct, Z_to_Q, Qeq, Qdiv, Qmult, Qinv, inject_Z.
  destruct b as [|p|p]; try lia. cbn.
  rewrite ?Pos.mul_1_r, ?Z.mul_1_r. lia.
Qed.

(** A rate of the form [d > 0 ? n / d * 100 : 0] with [n] and [d] not
    negative. *)
Lemma rate_facts (n d : Z) (r : Q) :
  0 <= n -> 0 <= d ->
  r = (if 0 <? d then pct n d else 0%Q) ->
  (0 <= r)%Q
  /\ (d = 0 -> r == 0)
  /\ (r == 0 <-> d = 0 \/ n = 0)
  /\ ((r <= 100)%Q <-> d = 0 \/ n <= d).
Proof.
  intros Hn Hd ->. destruct (Z.ltb_spec 0 d) as [Hpos|Hzero].
  - rewrite pct_nonneg, pct_zero by exact Hpos.
    change 100%Q with (inject_Z 1 * 100)%Q. rewrite pct_le by exact Hpos.
    repeat split; lia.
  - assert (d = 0) by lia. repeat split; try reflexivity; try discriminate; auto.
Qed.

(** C2. For every dataset the generator derives from events and users,
    and every filter state: the conversion rate lies between 0 and 100 and
    the click-through rate is not negative; each rate is 0 exactly when
    its denominator or its numerator is 0 (so it is 0 when its denominator
    is 0); the click-through rate is at most 100 exactly when no user was
    reached or the filtered clicks are not more than the users reached. *)
Theorem rates_bounded
    (Date_parse : string -> option Z) (setHours_23_59_59_999 : Z -> Z)
    (events : list Event) (users : list User) (rng : nat -> Q) (i : nat)
    (f g : gmap string string) :
  let d := generateFrom events users rng i in
  let fc := Index.filteredClicks Date_parse setHours_23_59_59_999 f (clickData d) in
  let ft := Index.filteredTrans fc (transactions d) in
  let cr := Index.conversionRate fc ft in
  let fd := Part000.filteredData (clickData d) g in
  let ctr := Part000.clickThroughRate (ds_totalReached d) fd in
  ((0 <= cr)%Q /\ (cr <= 100)%Q)
  /\ (cr == 0 <-> Index.totalClicks fc = 0 \/ Index.totalConversions ft = 0)
  /\ (0 <= ctr)%Q
  /\ (ctr == 0 <-> ds_totalReached d = 0 \/ Part000.totalClicks fd = 0)
  /\ ((ctr <= 100)%Q
      <-> ds_totalReached d = 0 \/ Part000.totalClicks fd <= ds_totalReached d).
Proof.
  intros d fc ft cr fd ctr.
  assert (Hlen : Index.totalConversions ft <= Index.totalClicks fc).
  { unfold Index.totalConversions, Index.totalClicks.
    apply Nat2Z.inj_le, filteredTrans_length, transactions_NoDup. }
  destruct (rate_facts (Index.totalConversions ft) (Index.totalClicks fc) cr)
    as (H1 & _ & H2 & H3);
    [apply Nat2Z.is_nonneg|apply Nat2Z.is_nonneg|reflexivity|].
  destruct (rate_facts (Part000.totalClicks fd) (ds_totalReached d) ctr)
    as (H4 & _ & H5 & H6);
    [apply Nat2Z.is_nonneg|apply Nat2Z.is_nonneg|reflexivity|].
  repeat split; try assumption; try tauto.
Qed.

(** C2 as it is written fails: with two attributed clicks, no conversion
    and one user reached, the conversion rate is 0 although its
    denominator is 2, and the click-through rate is 200. *)
Lemma rates_counterexample :
  let d := generateFrom sample_events sample_users (fun _ => 9 # 10) 0 in
  let fc := Index.filteredClicks isoDate endOfDayUTC sample_filters (clickData d) in
  let ft := Index.filteredTrans fc (transactions d) in
  let fd := Part000.filteredData (clickData d) sample_filters0 in
  (Index.conversionRate fc ft == 0 /\ Index.totalClicks fc = 2)
  /\ (ds_totalReached d = 1 /\ Part000.totalClicks fd = 2)
  /\ Part000.clickThroughRate (ds_totalReached d) fd == 200
  /\ ~ (Part000.clickThroughRate (ds_totalReached d) fd <= 100)%Q.
Proof.
  vm_compute. repeat split; try reflexivity. intros H. now apply H.
Qed.

(** ** Date range *)

(** C3. For every click list and every filter state of index.tsx whose
    start date or end date is an Invalid Date: click filtering returns
    the empty list, without an error: a comparison with an Invalid Date
    is false, so the date range admits no click. *)
Theorem invalid_date_range_admits_nothing
    (Date_parse : string -> option Z) (setHours_23_59_59_999 : Z -> Z)
    (f : gmap string string) (clicks : list AttributedClick) :
  Index.startOf Date_parse f = None
  \/ Index.endOf Date_parse setHours_23_59_59_999 f = None ->
  Index.filteredClicks Date_parse setHours_23_59_59_999 f clicks = [].
Proof.
  intros H. unfold Index.filteredClicks.
  induction clicks as [|c clicks IH]; [reflexivity|].
  cbn [List.filter]. rewrite IH.
  destruct H as [-> | ->]; cbn; [reflexivity|].
  now rewrite andb_false_r.
Qed.

Lemma invalid_date_range_admits_nothing_witness :
  Index.startOf isoDate (<["startDate" := EmptyString]> sample_filters) = None
  /\ Index.filteredClicks isoDate endOfDayUTC
       (<["startDate" := EmptyString]> sample_filters)
       (attribute sample_events sample_users) = [].
Proof.
  split; [reflexivity|].
  apply (invalid_date_range_admits_nothing isoDate endOfDayUTC).
  left. reflexivity.
Defined.

(** C3 as it is written fails: after the start date is cleared, the
    filters admit no click, while the filters without the date range
    admit both sample clicks. *)
Lemma invalid_date_range_counterexample :
  let f := <["startDate" := EmptyString]> sample_filters in
  let clicks := attribute sample_events sample_users in
  Index.startOf isoDate f = None
  /\ Index.filteredClicks isoDate endOfDayUTC f clicks = []
  /\ List.filter (Index.categoricalMatch f) clicks = clicks
  /\ Index.filteredClicks isoDate endOfDayUTC f clicks
     <> List.filter (Index.categoricalMatch f) clicks.
Proof.
  vm_compute. repeat split. discriminate.
Qed.

Example valid_date_range_sample :
  Index.filteredClicks isoDate endOfDayUTC sample_filters
    (attribute sample_events sample_users)
  = attribute sample_events sample_users.
Proof. vm_compute. reflexivity. Qed.

(** ** Grouped counts *)

Lemma Obj_get_set o k v k' :
  Obj_get (Obj_set o k v) k' = if String.eqb k k' then Some v else Obj_get o k'.
Proof.
  induction o as [|[k0 v0] o IH]; cbn; [reflexivity|].
  destruct (String.eqb_spec k0 k) as [->|Hne]; cbn.
  - now destruct (String.eqb k k').
  - rewrite IH. destruct (String.eqb_spec k0 k') as [->|_]; [|reflexivity].
    destruct (String.eqb_spec k k'); [congruence|reflexivity].
Qed.

Lemma Obj_keys_set o k v :
  Obj_keys (Obj_set o k v)
  = match Obj_get o k with
    | Some _ => Obj_keys o
    | None => Obj_keys o ++ [k]
    end.
Proof.
  unfold Obj_keys. induction o as [|[k0 v0] o IH]; cbn; [reflexivity|].
  destruct (String.eqb_spec k0 k) as [->|Hne]; cbn; [reflexivity|].
  rewrite IH. now destruct (Obj_get o k).
Qed.

Lemma Obj_get_keys o k :
  existsb (String.eqb k) (Obj_keys o)
  = match Obj_get o k with Some _ => true | None => false end.
Proof.
  unfold Obj_keys. induction o as [|[k0 v0] o IH]; cbn; [reflexivity|].
  rewrite IH, (String.eqb_sym k k0). now destruct (String.eqb k0 k).
Qed.

Lemma occurrences_cons k x l :
  occurrences k (x :: l) = (if String.eqb k x then 1 else 0) + occurrences k l.
Proof.
  unfold occurrences. cbn [List.filter].
  destruct (String.eqb k x); cbn [length]; lia.
Qed.

Lemma occurrences_nonneg k l : 0 <= occurrences k l.
Proof. unfold occurrences. lia. Qed.

Lemma occurrences_zero k l : occurrences k l = 0 <-> ~ In k l.
Proof.
  induction l as [|x l IH]; [cbn; tauto|].
  rewrite occurrences_cons. pose proof (occurrences_nonneg k l).
  destruct (String.eqb_spec k x) as [->|Hne]; cbn.
  - split; [lia|]. intros []. now left.
  - rewrite Z.add_0_l, IH. intuition congruence.
Qed.

Section Counting.

Context {A : Type} (keyOf : A -> string).

Lemma countInto_cons acc x data :
  countInto keyOf acc (x :: data)
  = countInto keyOf
      (Obj_set acc (keyOf x) (orZero (Obj_get acc (keyOf x)) + 1)) data.
Proof. reflexivity. Qed.

(** The count of a key after the reduction: what the accumulator held
    plus the occurrences of the key. *)
Lemma countInto_get data : forall acc k,
  Obj_get (countInto keyOf acc data) k
  = if occurrences k (List.map keyOf data) =? 0 then Obj_get acc k
    else Some (orZero (Obj_get acc k) + occurrences k (List.map keyOf data)).
Proof.
  induction data as [|x data IH]; intros acc k; [reflexivity|].
  rewrite countInto_cons. cbn [List.map].
  rewrite IH, Obj_get_set, occurrences_cons, (String.eqb_sym k).
  pose proof (occurrences_nonneg k (List.map keyOf data)) as Hn.
  destruct (String.eqb_spec (keyOf x) k) as [Heq|Hne]; [subst k|].
  - set (n := occurrences (keyOf x) (List.map keyOf data)) in *.
    destruct (Z.eqb_spec n 0) as [H0|H0];
      destruct (Z.eqb_spec (1 + n) 0) as [H1|H1]; try lia;
      cbn [orZero]; f_equal; lia.
  - now rewrite Z.add_0_l.
Qed.

(** The keys after the reduction: those of the accumulator, then the new
    ones where they occur first. *)
Lemma countInto_keys data : forall acc,
  Obj_keys (countInto keyOf acc data)
  = Obj_keys acc ++ firstSeen (Obj_keys acc) (List.map keyOf data).
Proof.
  induction data as [|x data IH]; intros acc.
  - cbn. now rewrite app_nil_r.
  - rewrite countInto_cons. cbn [List.map firstSeen].
    rewrite IH, Obj_keys_set, Obj_get_keys.
    destruct (Obj_get acc (keyOf x)); [reflexivity|].
    now rewrite <- app_assoc.
Qed.

End Counting.

Lemma existsb_eqb_In x (l : list string) :
  existsb (String.eqb x) l = true <-> In x l.
Proof.
  rewrite existsb_exists. split.
  - intros (y & Hy & Heq). apply String.eqb_eq in Heq. now subst.
  - intros H. exists x. split; [exact H|apply String.eqb_refl].
Qed.

Lemma firstSeen_In l : forall seen k,
  In k (firstSeen seen l) <-> In k l /\ ~ In k seen.
Proof.
  induction l as [|x l IH]; intros seen k; cbn [firstSeen]; [cbn; tauto|].
  destruct (existsb (String.eqb x) seen) eqn:Hx.
  - apply existsb_eqb_In in Hx. rewrite IH. cbn. intuition congruence.
  - assert (Hx' : ~ In x seen).
    { intros H. apply existsb_eqb_In in H. congruence. }
    cbn [In]. rewrite IH, in_app_iff. cbn.
    destruct (String.eqb_spec x k) as [->|Hne]; intuition congruence.
Qed.

Lemma firstSeen_NoDup l : forall seen, NoDup (firstSeen seen l).
Proof.
  induction l as [|x l IH]; intros seen; cbn [firstSeen]; [constructor|].
  destruct (existsb (String.eqb x) seen); [apply IH|].
  constructor; [|apply IH].
  rewrite list_elem_of_In, firstSeen_In, in_app_iff. cbn. tauto.
Qed.

Lemma firstSeen_all_seen l seen :
  (forall x, In x l -> In x seen) -> firstSeen seen l = [].
Proof.
  intros H. destruct (firstSeen seen l) as [|k ks] eqn:Hk; [reflexivity|].
  assert (Hin : In k (firstSeen seen l)) by (rewrite Hk; now left).
  apply firstSeen_In in Hin as [Hin Hnot]. now apply H in Hin.
Qed.

(** An object is determined by its keys and the values read at them. *)
Lemma Obj_of_keys (g : string -> Z) (o : Obj) :
  NoDup (Obj_keys o) ->
  (forall k, In k (Obj_keys o) -> Obj_get o k = Some (g k)) ->
  o = List.map (fun k => (k, g k)) (Obj_keys o).
Proof.
  induction o as [|[k0 v0] o IH]; intros Hnd Hget; [reflexivity|].
  cbn in *. apply NoDup_cons in Hnd as [Hk0 Hnd].
  pose proof (Hget k0 (or_introl eq_refl)) as H0.
  rewrite String.eqb_refl in H0. injection H0 as ->.
  f_equal. apply IH; [exact Hnd|].
  intros k Hk. specialize (Hget k (or_intror Hk)).
  destruct (String.eqb_spec k0 k) as [->|_]; [|exact Hget].
  now apply list_elem_of_In in Hk.
Qed.

Example grouped_counts_sample :
  reduceToCount
    [sample_click 30; mergeUser (sample_user "u2" 40) "Popup" 6; sample_click 50]
    Channel
  = [("Push", 2); ("Popup", 1)].
Proof. reflexivity. Qed.

(** ** Age groups *)

Lemma ageBucket_label a : In (Index.ageBucket a) AGE_LABELS.
Proof.
  unfold Index.ageBucket, AGE_LABELS.
  repeat (destruct (_ <=? _); [cbn; tauto|]). cbn. tauto.
Qed.

Lemma ageGroups_countInto (data : list AttributedClick) :
  Index.ageGroups data
  = countInto (fun c => Index.ageBucket (age c)) Index.ageGroups0 data.
Proof. reflexivity. Qed.

(** The age groups in closed form: the five labels in their order, each
    with the number of clicks whose age falls under it. *)
Lemma ageGroups_closed (data : list AttributedClick) :
  Index.ageGroups data
  = List.map
      (fun l => (l, occurrences l
                      (List.map (fun c => Index.ageBucket (age c)) data)))
      AGE_LABELS.
Proof.
  set (bucket := fun c : AttributedClick => Index.ageBucket (age c)).
  assert (Hkeys : Obj_keys (Index.ageGroups data) = AGE_LABELS).
  { rewrite ageGroups_countInto, countInto_keys, firstSeen_all_seen;
      [reflexivity|].
    intros x Hx. apply in_map_iff in Hx as (c & <- & _). apply ageBucket_label. }
  rewrite <- Hkeys. apply Obj_of_keys.
  - rewrite Hkeys. unfold AGE_LABELS.
    repeat (constructor; [rewrite list_elem_of_In; cbn; intuition discriminate|]).
    constructor.
  - intros k Hk. rewrite Hkeys in Hk.
    rewrite ageGroups_countInto, countInto_get. fold bucket.
    assert (H0 : Obj_get Index.ageGroups0 k = Some 0).
    { cbn in Hk. intuition (subst; reflexivity). }
    rewrite H0. cbn [orZero].
    destruct (Z.eqb_spec (occurrences k (List.map bucket data)) 0) as [->|_];
      reflexivity.
Qed.


(** C7. For every click whose age is between 18 and 65: the age falls
    under one of the five labels; among the five ranges that the labels
    denote in the drill-down, the range of that label and no other holds
    the age; the age groups of the click alone count 1 for that label and
    0 for the four others; 25 falls under 18-25, 26 under 26-35 and 56
    under 56+. *)
Theorem age_bucket_partition (reached : Z) (c : AttributedClick)
    (ft : list Transaction) :
  18 <= age c <= 65 ->
  In (Index.ageBucket (age c)) AGE_LABELS
  /\ Forall (fun l => Index.inAgeRange l (age c) = true
                      <-> l = Index.ageBucket (age c)) AGE_LABELS
  /\ Index.a_ageGroups (Index.analytics reached [c] ft)
     = List.map
         (fun l => (l, if String.eqb l (Index.ageBucket (age c)) then 1 else 0))
         AGE_LABELS
  /\ Index.ageBucket 25 = "18-25"
  /\ Index.ageBucket 26 = "26-35"
  /\ Index.ageBucket 56 = "56+".
Proof.
  intros Hage. split; [apply ageBucket_label|]. split; [|split].
  - unfold AGE_LABELS, Index.inAgeRange.
    repeat (constructor;
            [match goal with
             | |- context [Index.ageRange ?l] =>
                 let r := eval vm_compute in (Index.ageRange l) in
                 change (Index.ageRange l) with r
             end;
             cbv beta iota; rewrite ?andb_true_iff, ?Z.leb_le;
             unfold Index.ageBucket;
             repeat match goal with
                    | |- context [?x <=? ?y] => destruct (Z.leb_spec x y)
                    end;
             split; intros; try discriminate; try reflexivity; try lia|]).
    constructor.
  - change (Index.a_ageGroups (Index.analytics reached [c] ft)) with (Index.ageGroups [c]).
    rewrite ageGroups_closed. unfold occurrences. cbn [List.map List.filter].
    apply map_ext. intros l.
    now destruct (String.eqb l (Index.ageBucket (age c))).
  - repeat split.
Qed.

Lemma age_bucket_partition_witness :
  18 <= age (sample_click 25) <= 65
  /\ In (Index.ageBucket (age (sample_click 25))) AGE_LABELS
  /\ Forall (fun l => Index.inAgeRange l (age (sample_click 25)) = true
                      <-> l = Index.ageBucket (age (sample_click 25))) AGE_LABELS
  /\ Index.a_ageGroups (Index.analytics 1 [sample_click 25] [])
     = List.map
         (fun l => (l, if String.eqb l (Index.ageBucket (age (sample_click 25)))
                       then 1 else 0))
         AGE_LABELS
  /\ Index.ageBucket 25 = "18-25"
  /\ Index.ageBucket 26 = "26-35"
  /\ Index.ageBucket 56 = "56+".
Proof.
  split; [cbn; lia|].
  apply (age_bucket_partition 1 (sample_click 25) []). cbn. lia.
Defined.

Example age_boundaries :
  List.map Index.ageBucket [18; 25; 26; 35; 36; 45; 46; 55; 56; 65]
  = ["18-25"; "18-25"; "26-35"; "26-35"; "36-45"; "36-45"; "46-55"; "46-55";
     "56+"; "56+"].
Proof. reflexivity. Qed.

(** ** Drill-down state *)

Lemma sameChartFilter_eq (cf : Index.ChartFilter) cat v :
  Index.sameChartFilter cf cat v = true <-> cf = Index.mkChartFilter cat v.
Proof.
  destruct cf as [cat' v']. unfold Index.sameChartFilter. cbn.
  rewrite andb_true_iff, !String.eqb_eq.
  split; [intros [-> ->]; reflexivity|intros [= -> ->]; now split].
Qed.

(** C8. For every state of the dashboard of index.tsx: a bar click on
    the dimension and value of the active drill-down clears the
    drill-down, any other bar click makes its dimension and value the
    active drill-down, and both leave the filters as they are; a change
    of a filter sets that filter and clears the drill-down, whatever it
    was; two clicks on one bar from a state without drill-down lead back
    to it, where the table shows the filtered clicks. *)
Theorem drill_down_transitions (st : Index.State) (cat v name x : string) :
  Index.handleBarClick cat v st
  = {| Index.filters := Index.filters st;
       Index.chartFilter :=
         if decide (Index.chartFilter st = Some (Index.mkChartFilter cat v))
         then None
         else Some (Index.mkChartFilter cat v) |}
  /\ Index.handleFilterChange name x st
     = {| Index.filters := <[name := x]> (Index.filters st);
          Index.chartFilter := None |}
  /\ Index.handleBarClick cat v
       (Index.handleBarClick cat v (Index.handleClearChartFilter st))
     = Index.handleClearChartFilter st
  /\ forall data,
       Index.filteredTableData data
         (Index.chartFilter (Index.handleClearChartFilter st)) = data.
Proof.
  split; [|split; [reflexivity|split; [|reflexivity]]].
  - unfold Index.handleBarClick.
    destruct (Index.chartFilter st) as [cf|].
    + destruct (Index.sameChartFilter cf cat v) eqn:Hs.
      * apply sameChartFilter_eq in Hs as ->. now rewrite decide_True.
      * rewrite decide_False; [reflexivity|].
        intros [= ->]. now rewrite (proj2 (sameChartFilter_eq _ cat v)) in Hs.
    + now rewrite decide_False.
  - unfold Index.handleBarClick, Index.handleClearChartFilter. cbn.
    now rewrite (proj2 (sameChartFilter_eq _ cat v)).
Qed.

Example drill_down_sample :
  let st := Index.mkState sample_filters None in
  Index.chartFilter (Index.handleBarClick "channel" "Push" st)
  = Some (Index.mkChartFilter "channel" "Push")
  /\ Index.chartFilter
       (Index.handleBarClick "gender" "Female"
          (Index.handleBarClick "channel" "Push" st))
     = Some (Index.mkChartFilter "gender" "Female")
  /\ Index.chartFilter
       (Index.handleBarClick "channel" "Push"
          (Index.handleBarClick "channel" "Push" st))
     = None
  /\ Index.chartFilter
       (Index.handleFilterChange "country" "UK"
          (Index.handleBarClick "channel" "Push" st))
     = None.
Proof. repeat split. Qed.

(** ** The scenarios of the specification *)

(** Without clicks and without users reached, the rates and the volume
    are 0. *)
Example empty_dataset :
  let a := Index.analytics 0 [] (Index.filteredTrans [] []) in
  Index.a_totalClicks a = 0
  /\ Index.a_conversionRate a = 0%Q
  /\ Index.a_totalVolume a = 0
  /\ Part000.clickThroughRate 0 [] = 0%Q.
Proof. repeat split. Qed.

(** The customer types of the snapshot of index.tsx carry capitalized
    labels; the drill-down compares them without regard to case. *)
Example customer_type_labels :
  Index.customerTypeDistribution (Index.analytics 1 [sample_click 30] [])
  = [("Active", 1)]
  /\ Index.filteredTableData [sample_click 30]
       (Some (Index.mkChartFilter "customer_type" "Active"))
     = [sample_click 30].
Proof. split; reflexivity. Qed.

(** The age drill-down of a label holds the ages of its bucket. *)
Example age_drill_down :
  Index.filteredTableData [sample_click 25; sample_click 26; sample_click 56]
    (Some (Index.mkChartFilter "age" "26-35"))
  = [sample_click 26].
Proof. reflexivity. Qed.

(** The click events among the generated names, and their channels. *)
Example channel_names :
  List.filter (fun n => JsString.includes n "_clicked") EVENT_NAMES
  = ["push_clicked"; "popup_clicked"; "slider_clicked"]
  /\ List.map channelOf ["push_clicked"; "popup_clicked"; "slider_clicked"]
     = ["Push"; "Popup"; "Slider"].
Proof. split; reflexivity. Qed.

(** * Further properties of the source *)

(** ** The random helpers (lines 13-14) *)

Lemma sample_rng_unit : unitDraws sample_rng.
Proof.
  intros k. unfold sample_rng.
  destruct (Nat.even k); (split; [discriminate|reflexivity]).
Qed.

Lemma Qfloor_scaled_range (r : Q) (n : Z) :
  (0 <= r)%Q -> (r < 1)%Q -> 0 < n -> 0 <= Qfloor (r * inject_Z n) < n.
Proof.
  intros H0 H1 Hn. split; [apply Qfloor_scaled_nonneg; [exact H0|lia]|].
  rewrite Zlt_Qlt. eapply Qle_lt_trans; [apply Qfloor_le|].
  rewrite <- (Qmult_1_l (inject_Z n)) at 2.
  apply Qmult_lt_compat_r; [|exact H1].
  change 0%Q with (inject_Z 0). now rewrite <- Zlt_Qlt.
Qed.

Lemma rand_unfold rng min max i :
  rand rng min max i = (Qfloor (rng i * inject_Z (max - min + 1)) + min, S i).
Proof. reflexivity. Qed.

Lemma rand_between rng min max i :
  unitDraws rng -> min <= max -> min <= fst (rand rng min max i) <= max.
Proof.
  intros Hrng Hle. rewrite rand_unfold. cbn [fst].
  destruct (Hrng i) as [H0 H1].
  pose proof (Qfloor_scaled_range (rng i) (max - min + 1) H0 H1) as H. lia.
Qed.

(** X1. [rand(min, max)] returns an integer between [min] and [max],
    both included, when [min] is not above [max], and takes one draw. *)
Theorem rand_range (rng : nat -> Q) (min max : Z) (i : nat) :
  unitDraws rng -> min <= max ->
  min <= fst (rand rng min max i) <= max /\ snd (rand rng min max i) = S i.
Proof.
  intros Hrng Hle. split; [|reflexivity].
  pose proof (rand_between rng min max i Hrng Hle) as H. lia.
Qed.

Lemma rand_range_witness :
  unitDraws sample_rng /\ 18 <= 65
  /\ 18 <= fst (rand sample_rng 18 65 1%nat) <= 65
  /\ snd (rand sample_rng 18 65 1%nat) = 2%nat.
Proof.
  split; [exact sample_rng_unit|]. split; [lia|].
  apply (rand_range sample_rng 18 65 1%nat sample_rng_unit). lia.
Defined.

Lemma at_index_In {A : Type} (d : A) (arr : list A) (i : Z) :
  0 <= i < Z.of_nat (length arr) -> In (Generator.at_index d arr i) arr.
Proof.
  intros H. unfold Generator.at_index.
  destruct (Z.ltb_spec i 0); [lia|]. apply nth_In. lia.
Qed.

Lemma randChoice_unfold {A : Type} rng (d : A) arr i :
  Generator.randChoice rng d arr i
  = (Generator.at_index d arr
       (Qfloor (rng i * inject_Z (Z.of_nat (length arr)))), S i).
Proof. reflexivity. Qed.

Lemma randChoice_In {A : Type} rng (d : A) arr i :
  unitDraws rng -> arr <> [] -> In (fst (Generator.randChoice rng d arr i)) arr.
Proof.
  intros Hrng Hne. rewrite randChoice_unfold. cbn [fst]. apply at_index_In.
  destruct (Hrng i) as [H0 H1]. apply Qfloor_scaled_range; try assumption.
  destruct arr; [contradiction|cbn [length]; lia].
Qed.

(** X2. [randChoice(arr)] returns an element of a non-empty array, never
    [undefined], and takes one draw. *)
Theorem randChoice_member {A : Type} (rng : nat -> Q) (undefined : A)
    (arr : list A) (i : nat) :
  unitDraws rng -> arr <> [] ->
  In (fst (Generator.randChoice rng undefined arr i)) arr
  /\ snd (Generator.randChoice rng undefined arr i) = S i.
Proof.
  intros Hrng Hne. split; [|reflexivity].
  destruct arr as [|x arr]; [contradiction|].
  apply randChoice_In; [exact Hrng|discriminate].
Qed.

Lemma randChoice_member_witness :
  unitDraws sample_rng /\ Generator.GENDERS <> []
  /\ In (fst (Generator.randChoice sample_rng "undefined" Generator.GENDERS 0%nat))
       Generator.GENDERS
  /\ snd (Generator.randChoice sample_rng "undefined" Generator.GENDERS 0%nat) = 1%nat.
Proof.
  split; [exact sample_rng_unit|]. split; [discriminate|].
  apply (randChoice_member sample_rng "undefined" Generator.GENDERS 0%nat
           sample_rng_unit).
  discriminate.
Defined.

(** ** Where an attributed click comes from *)

Lemma firstMin_In l e : firstMin l = Some e -> In e l.
Proof.
  intros H. apply firstMin_Some in H as (pre & post & -> & _).
  apply in_elt.
Qed.

Lemma clicksOfUser_In uid events e :
  In e (clicksOfUser uid events)
  <-> In e events /\ isClicked e = true /\ e_user_id e = uid.
Proof.
  unfold clicksOfUser. rewrite !filter_In, String.eqb_eq. tauto.
Qed.

Lemma findUser_In users uid u : findUser users uid = Some u -> In u users.
Proof. unfold findUser. intros H. now apply find_some in H. Qed.

Lemma findUser_known users u :
  In u users -> exists u', findUser users (u_user_id u) = Some u'.
Proof.
  intros Hin. unfold findUser.
  destruct (List.find _ users) as [u'|] eqn:Hf; [now exists u'|].
  apply (find_none _ _ Hf) in Hin. now rewrite String.eqb_refl in Hin.
Qed.

(** Every attributed click is the record of a listed user merged with
    the channel and the time of a click event of that user. *)
Lemma attribute_provenance events users c :
  In c (attribute events users) ->
  exists u e,
    In u users /\ In e events /\ isClicked e = true
    /\ e_user_id e = u_user_id u
    /\ findUser users (e_user_id e) = Some u
    /\ c = mergeUser u (channelOf (event_name e)) (e_timestamp e).
Proof.
  intros Hc.
  assert (H : In c (List.filter (fun c' => String.eqb (user_id c') (user_id c))
                      (attribute events users))).
  { apply filter_In. split; [exact Hc|apply String.eqb_refl]. }
  rewrite attribute_of_user in H.
  destruct (findUser users (user_id c)) as [u|] eqn:Hu; [|destruct H].
  destruct (firstMin (clicksOfUser (user_id c) events)) as [e|] eqn:He;
    [|destruct H].
  destruct H as [<-|[]].
  apply firstMin_In, clicksOfUser_In in He as (He1 & He2 & He3).
  cbn [user_id mergeUser] in *.
  exists u, e. split; [exact (findUser_In _ _ _ Hu)|].
  repeat split; try assumption. now rewrite He3.
Qed.

(** A click event of a listed user is never dropped: the user gets an
    attributed click. *)
Lemma attribute_complete events users e u :
  In e events -> isClicked e = true -> In u users -> u_user_id u = e_user_id e ->
  exists c, In c (attribute events users) /\ user_id c = e_user_id e.
Proof.
  intros He Hclick Hu Hid.
  destruct (findUser_known users u Hu) as (u' & Hf). rewrite Hid in Hf.
  pose proof (attribute_of_user events users (e_user_id e)) as H.
  rewrite Hf in H.
  destruct (firstMin (clicksOfUser (e_user_id e) events)) as [e'|] eqn:He'.
  - set (c := mergeUser u' (channelOf (event_name e')) (e_timestamp e')) in *.
    assert (Hin : In c (List.filter
                          (fun c' => String.eqb (user_id c') (e_user_id e))
                          (attribute events users))) by (rewrite H; now left).
    apply filter_In in Hin as [Hin Heq]. apply String.eqb_eq in Heq.
    now exists c.
  - apply firstMin_None in He'.
    assert (Hin : In e (clicksOfUser (e_user_id e) events))
      by now apply clicksOfUser_In.
    rewrite He' in Hin. destruct Hin.
Qed.

(** ** The generated users and events (lines 17-41) *)

Lemma genUser_unfold rng k i :
  Generator.genUser rng k i
  = ({| u_user_id := userIdOf (Z.of_nat k);
        u_gender := fst (Generator.randChoice rng "undefined" Generator.GENDERS (1 + i)%nat);
        u_age := fst (rand rng 18 65 (2 + i)%nat);
        u_send_country :=
          fst (Generator.randChoice rng "undefined" Generator.SEND_COUNTRIES i);
        u_receive_country :=
          fst (Generator.randChoice rng "undefined" Generator.RECEIVE_COUNTRIES (3 + i)%nat);
        u_customer_type :=
          fst (Generator.randChoice rng "undefined" Generator.CUSTOMER_TYPES (4 + i)%nat);
        u_device_info :=
          fst (Generator.randChoice rng "undefined" Generator.DEVICES (5 + i)%nat);
        u_platform_type :=
          fst (Generator.randChoice rng "undefined" Generator.PLATFORMS (6 + i)%nat) |},
     (7 + i)%nat).
Proof. reflexivity. Qed.

Lemma genUser_generated rng k i :
  unitDraws rng -> generatedUser (fst (Generator.genUser rng k i)).
Proof.
  intros Hrng. rewrite genUser_unfold. unfold generatedUser.
  cbn [fst u_gender u_age u_send_country u_receive_country u_customer_type
       u_device_info u_platform_type].
  repeat split;
    try (apply randChoice_In; [exact Hrng|discriminate]);
    apply rand_between; try exact Hrng; lia.
Qed.

Lemma genUsers_cons rng count first i :
  Generator.genUsers rng (S count) first i
  = (fst (Generator.genUser rng first i)
       :: fst (Generator.genUsers rng count (S first) (7 + i)%nat),
     snd (Generator.genUsers rng count (S first) (7 + i)%nat)).
Proof.
  cbn [Generator.genUsers]. unfold bind at 1. rewrite genUser_unfold.
  unfold bind, ret. now destruct (Generator.genUsers rng count (S first) (7 + i)%nat).
Qed.

Lemma userIdOf_inj a b : userIdOf a = userIdOf b -> a = b.
Proof.
  unfold userIdOf. cbn [String.append]. intros [= H]. now apply (inj pretty).
Qed.

Lemma genUsers_ids rng count : forall first i,
  List.map u_user_id (fst (Generator.genUsers rng count first i))
  = List.map (fun k => userIdOf (Z.of_nat k)) (seq first count)
  /\ snd (Generator.genUsers rng count first i) = (7 * count + i)%nat.
Proof.
  induction count as [|count IH]; intros first i; [split; reflexivity|].
  rewrite genUsers_cons. cbn [fst snd List.map seq].
  destruct (IH (S first) (7 + i)%nat) as [-> ->].
  rewrite genUser_unfold. cbn [fst u_user_id]. split; [reflexivity|lia].
Qed.

Lemma genUsers_generated rng count : forall first i,
  unitDraws rng -> Forall generatedUser (fst (Generator.genUsers rng count first i)).
Proof.
  induction count as [|count IH]; intros first i Hrng; [constructor|].
  rewrite genUsers_cons. cbn [fst].
  constructor; [now apply genUser_generated|now apply IH].
Qed.

Lemma NoDup_map_seq (f : nat -> string) first count :
  (forall a b, f a = f b -> a = b) -> NoDup (List.map f (seq first count)).
Proof.
  intros Hinj. revert first. induction count as [|count IH]; intros first;
    cbn [seq List.map]; constructor; [|apply IH].
  rewrite list_elem_of_In, in_map_iff. intros (k & Hk & Hin).
  apply Hinj in Hk. apply in_seq in Hin. lia.
Qed.

(** X3. With draws in [0, 1) the user loop makes [count] users whose ids
    are [user_first], [user_(first+1)], ... in this order, all different;
    each has an age from 18 to 65 and a gender, countries, customer type,
    device and platform from the lists of the source; seven draws are
    taken for each user. *)
Theorem generated_users (rng : nat -> Q) (count first i : nat) :
  unitDraws rng ->
  let users := fst (Generator.genUsers rng count first i) in
  length users = count
  /\ List.map u_user_id users
     = List.map (fun k => userIdOf (Z.of_nat k)) (seq first count)
  /\ NoDup (List.map u_user_id users)
  /\ Forall generatedUser users
  /\ snd (Generator.genUsers rng count first i) = (7 * count + i)%nat.
Proof.
  intros Hrng users. destruct (genUsers_ids rng count first i) as [Hids Hsnd].
  fold users in Hids. repeat split; try assumption.
  - rewrite <- (length_map u_user_id), Hids, length_map. apply length_seq.
  - rewrite Hids. apply NoDup_map_seq.
    intros a b H. apply userIdOf_inj in H. lia.
  - now apply genUsers_generated.
Qed.

Lemma generated_users_witness :
  unitDraws sample_rng
  /\ let users := fst (Generator.genUsers sample_rng 3 0 0%nat) in
     length users = 3%nat
     /\ List.map u_user_id users
        = List.map (fun k => userIdOf (Z.of_nat k)) (seq 0 3)
     /\ NoDup (List.map u_user_id users)
     /\ Forall generatedUser users
     /\ snd (Generator.genUsers sample_rng 3 0 0%nat) = (7 * 3 + 0)%nat.
Proof.
  split; [exact sample_rng_unit|].
  exact (generated_users sample_rng 3 0%nat 0%nat sample_rng_unit).
Defined.

Lemma genEvent_unfold rng cfg k i :
  Generator.genEvent rng cfg k i
  = ({| event_id := "evt_" ++ pretty (Z.of_nat k);
        e_user_id :=
          userIdOf (fst (rand rng 0 (Z.of_nat (cfg_users cfg) - 1) (1 + i)%nat));
        e_timestamp := fst (rand rng (cfg_startDate cfg) (cfg_endDate cfg) i);
        event_name :=
          fst (Generator.randChoice rng "undefined" EVENT_NAMES (2 + i)%nat) |},
     (3 + i)%nat).
Proof. reflexivity. Qed.

Lemma genEvent_generated rng cfg k i :
  unitDraws rng -> (1 <= cfg_users cfg)%nat ->
  cfg_startDate cfg <= cfg_endDate cfg ->
  generatedEvent cfg (fst (Generator.genEvent rng cfg k i)).
Proof.
  intros Hrng Husers Hdates. rewrite genEvent_unfold. unfold generatedEvent.
  cbn [fst event_name e_timestamp e_user_id]. split; [|split].
  - apply randChoice_In; [exact Hrng|discriminate].
  - now apply rand_between.
  - pose proof (rand_between rng 0 (Z.of_nat (cfg_users cfg) - 1) (1 + i)%nat Hrng)
      as Hr. specialize (Hr ltac:(lia)).
    exists (Z.to_nat (fst (rand rng 0 (Z.of_nat (cfg_users cfg) - 1) (1 + i)%nat))).
    split; [lia|]. now rewrite Z2Nat.id by lia.
Qed.

Lemma genEvents_cons rng cfg count first i :
  Generator.genEvents rng cfg (S count) first i
  = (fst (Generator.genEvent rng cfg first i)
       :: fst (Generator.genEvents rng cfg count (S first) (3 + i)%nat),
     snd (Generator.genEvents rng cfg count (S first) (3 + i)%nat)).
Proof.
  cbn [Generator.genEvents]. unfold bind at 1. rewrite genEvent_unfold.
  unfold bind, ret.
  now destruct (Generator.genEvents rng cfg count (S first) (3 + i)%nat).
Qed.

Lemma genEvents_generated rng cfg count : forall first i,
  unitDraws rng -> (1 <= cfg_users cfg)%nat ->
  cfg_startDate cfg <= cfg_endDate cfg ->
  Forall (generatedEvent cfg) (fst (Generator.genEvents rng cfg count first i))
  /\ length (fst (Generator.genEvents rng cfg count first i)) = count
  /\ snd (Generator.genEvents rng cfg count first i) = (3 * count + i)%nat.
Proof.
  induction count as [|count IH]; intros first i Hrng Husers Hdates.
  - repeat split. constructor.
  - rewrite genEvents_cons. cbn [fst snd length].
    destruct (IH (S first) (3 + i)%nat Hrng Husers Hdates) as (H1 & H2 & H3).
    split; [|split; lia].
    constructor; [now apply genEvent_generated|exact H1].
Qed.

Lemma generateInputs_unfold rng cfg :
  Generator.generateInputs rng cfg 0%nat
  = (fst (Generator.genUsers rng (cfg_users cfg) 0 0%nat),
     fst (Generator.genEvents rng cfg (cfg_events cfg) 0
            (snd (Generator.genUsers rng (cfg_users cfg) 0 0%nat))),
     snd (Generator.genEvents rng cfg (cfg_events cfg) 0
            (snd (Generator.genUsers rng (cfg_users cfg) 0 0%nat)))).
Proof.
  unfold Generator.generateInputs, bind, ret.
  destruct (Generator.genUsers rng (cfg_users cfg) 0 0%nat) as [users j].
  cbn [fst snd].
  now destruct (Generator.genEvents rng cfg (cfg_events cfg) 0 j).
Qed.

(** The generated events are well formed and their users are found. *)
Lemma generateInputs_resolve rng cfg :
  unitDraws rng -> (1 <= cfg_users cfg)%nat ->
  cfg_startDate cfg <= cfg_endDate cfg ->
  let users := fst (fst (Generator.generateInputs rng cfg 0%nat)) in
  let events := snd (fst (Generator.generateInputs rng cfg 0%nat)) in
  length users = cfg_users cfg
  /\ Forall (generatedEvent cfg) events
  /\ Forall (fun e => exists u, findUser users (e_user_id e) = Some u
                                /\ In u users /\ generatedUser u) events.
Proof.
  intros Hrng Husers Hdates. rewrite generateInputs_unfold. cbn [fst snd].
  set (users := fst (Generator.genUsers rng (cfg_users cfg) 0 0%nat)).
  destruct (genUsers_ids rng (cfg_users cfg) 0%nat 0%nat) as [Hids Hsnd].
  pose proof (genUsers_generated rng (cfg_users cfg) 0%nat 0%nat Hrng) as Hgen.
  fold users in Hids, Hgen. rewrite Hsnd.
  destruct (genEvents_generated rng cfg (cfg_events cfg) 0%nat
              (7 * cfg_users cfg + 0)%nat Hrng Husers Hdates) as (He & _ & _).
  split; [|split; [exact He|]].
  { rewrite <- (length_map u_user_id), Hids, length_map. apply length_seq. }
  eapply List.Forall_impl; [|exact He].
  intros e (_ & _ & k & Hk & Hid).
  assert (Hin : In (e_user_id e) (List.map u_user_id users)).
  { rewrite Hids, Hid. apply (in_map (fun k => userIdOf (Z.of_nat k))).
    apply in_seq. lia. }
  apply in_map_iff in Hin as (u & Hu & Hin).
  destruct (findUser_known users u Hin) as (u' & Hf). rewrite Hu in Hf.
  exists u'. split; [exact Hf|].
  pose proof (findUser_In _ _ _ Hf) as Hin'. split; [exact Hin'|].
  rewrite List.Forall_forall in Hgen. now apply Hgen.
Qed.

(** X4. With draws in [0, 1), at least one user and a start date not
    after the end date, the generator makes the configured numbers of
    users and events; every event has one of the six event names, a
    timestamp from the start date to the end date, and the id of one of
    the generated users, so that its user is found; seven draws are taken
    for each user and three for each event. *)
Theorem generated_events_resolve (rng : nat -> Q) (cfg : Config) :
  unitDraws rng -> (1 <= cfg_users cfg)%nat ->
  cfg_startDate cfg <= cfg_endDate cfg ->
  let users := fst (fst (Generator.generateInputs rng cfg 0%nat)) in
  let events := snd (fst (Generator.generateInputs rng cfg 0%nat)) in
  length users = cfg_users cfg
  /\ length events = cfg_events cfg
  /\ Forall (generatedEvent cfg) events
  /\ Forall (fun e => exists u, findUser users (e_user_id e) = Some u
                                /\ In u users /\ generatedUser u) events
  /\ snd (Generator.generateInputs rng cfg 0%nat)
     = (7 * cfg_users cfg + 3 * cfg_events cfg)%nat.
Proof.
  intros Hrng Husers Hdates users events.
  destruct (generateInputs_resolve rng cfg Hrng Husers Hdates)
    as (Hlen & Hev & Hres).
  fold users in Hlen, Hres. fold events in Hev, Hres.
  split; [exact Hlen|]. split; [|split; [exact Hev|split; [exact Hres|]]].
  - unfold events. rewrite generateInputs_unfold. cbn [fst snd].
    now apply genEvents_generated.
  - rewrite generateInputs_unfold. cbn [fst snd].
    destruct (genUsers_ids rng (cfg_users cfg) 0%nat 0%nat) as [_ ->].
    destruct (genEvents_generated rng cfg (cfg_events cfg) 0%nat
                (7 * cfg_users cfg + 0)%nat Hrng Husers Hdates) as (_ & _ & ->).
    lia.
Qed.

Lemma generated_events_resolve_witness :
  unitDraws sample_rng /\ (1 <= cfg_users sample_config)%nat
  /\ cfg_startDate sample_config <= cfg_endDate sample_config
  /\ let users := fst (fst (Generator.generateInputs sample_rng sample_config 0%nat)) in
     let events := snd (fst (Generator.generateInputs sample_rng sample_config 0%nat)) in
     length users = cfg_users sample_config
     /\ length events = cfg_events sample_config
     /\ Forall (generatedEvent sample_config) events
     /\ Forall (fun e => exists u, findUser users (e_user_id e) = Some u
                                   /\ In u users /\ generatedUser u) events
     /\ snd (Generator.generateInputs sample_rng sample_config 0%nat)
        = (7 * cfg_users sample_config + 3 * cfg_events sample_config)%nat.
Proof.
  split; [exact sample_rng_unit|]. split; [cbn; lia|]. split; [cbn; lia|].
  apply (generated_events_resolve sample_rng sample_config sample_rng_unit);
    cbn; lia.
Defined.

Lemma generateMockData_unfold rng cfg :
  Generator.generateMockData rng cfg
  = generateFrom (snd (fst (Generator.generateInputs rng cfg 0%nat)))
      (fst (fst (Generator.generateInputs rng cfg 0%nat))) rng
      (snd (Generator.generateInputs rng cfg 0%nat)).
Proof.
  unfold Generator.generateMockData.
  now destruct (Generator.generateInputs rng cfg 0%nat) as [[users events] i].
Qed.

Lemma click_channel name :
  In name EVENT_NAMES -> JsString.includes name "_clicked" = true ->
  In (channelOf name) ["Push"; "Popup"; "Slider"].
Proof.
  unfold EVENT_NAMES. cbn [In].
  intros [<-|[<-|[<-|[<-|[<-|[<-|[]]]]]]]; cbn; intros H;
    try discriminate; tauto.
Qed.

Lemma distinct_length (l k : list string) :
  NoDup l -> NoDup k -> (forall x, In x l <-> In x k) -> length l = length k.
Proof.
  intros Hl Hk H. apply Permutation_length, NoDup_Permutation; try assumption.
  intros x. rewrite !list_elem_of_In. apply H.
Qed.

(** X5. On generated users and events (draws in [0, 1), at least one
    user, start date not after end date) no click event is dropped: the
    user of every click event has an attributed click, so the attributed
    clicks are as many as the distinct user ids among the click events,
    and at most as many as the users; every attributed click has the
    channel Push, Popup or Slider, a timestamp from the start date to the
    end date, an age from 18 to 65 and the other attributes from the
    lists of the source. *)
Theorem generated_dataset (rng : nat -> Q) (cfg : Config) :
  unitDraws rng -> (1 <= cfg_users cfg)%nat ->
  cfg_startDate cfg <= cfg_endDate cfg ->
  let d := Generator.generateMockData rng cfg in
  let events := snd (fst (Generator.generateInputs rng cfg 0%nat)) in
  Forall (generatedClick cfg) (clickData d)
  /\ Forall (fun e => isClicked e = true ->
                      exists c, In c (clickData d) /\ user_id c = e_user_id e)
       events
  /\ length (clickData d)
     = length (firstSeen [] (List.map e_user_id (List.filter isClicked events)))
  /\ (length (clickData d) <= cfg_users cfg)%nat.
Proof.
  intros Hrng Husers Hdates d events.
  destruct (generateInputs_resolve rng cfg Hrng Husers Hdates)
    as (Hlen & Hev & Hres).
  fold events in Hev, Hres.
  set (users := fst (fst (Generator.generateInputs rng cfg 0%nat))) in *.
  assert (Hd : clickData d = attribute events users).
  { unfold d. now rewrite generateMockData_unfold. }
  rewrite Hd. rewrite List.Forall_forall in Hev, Hres.
  assert (Hcomplete : forall e, In e events -> isClicked e = true ->
            exists c, In c (attribute events users) /\ user_id c = e_user_id e).
  { intros e He Hclick. destruct (Hres e He) as (u & Hf & Hu & _).
    apply (attribute_complete events users e u); try assumption.
    now apply (findUser_id users). }
  split; [|split; [|split]].
  - apply List.Forall_forall. intros c Hc.
    apply attribute_provenance in Hc as (u & e & Hu & He & Hclick & Hid & Hf & ->).
    destruct (Hres e He) as (u' & Hf' & _ & Hgen).
    rewrite Hf in Hf'. injection Hf' as <-.
    destruct (Hev e He) as (Hname & Hts & _).
    destruct Hgen as (G1 & G2 & G3 & G4 & G5 & G6 & G7).
    unfold generatedClick. cbn [mergeUser channel timestamp age gender
      send_country receive_country customer_type device_info platform_type].
    repeat split; try assumption; try lia. now apply click_channel.
  - apply List.Forall_forall. intros e He Hclick. now apply Hcomplete.
  - rewrite <- (length_map user_id). apply distinct_length.
    + apply attribute_NoDup.
    + apply firstSeen_NoDup.
    + intros x. rewrite firstSeen_In, !in_map_iff. split.
      * intros (c & <- & Hc).
        apply attribute_provenance in Hc as (u & e & _ & He & Hclick & Hid & _ & ->).
        split; [|intros []]. exists e. split; [now symmetry|].
        now apply filter_In.
      * intros [(e & <- & He) _]. apply filter_In in He as [He Hclick].
        destruct (Hcomplete e He Hclick) as (c & Hc & Hid). now exists c.
  - rewrite <- Hlen, <- (length_map user_id), <- (length_map u_user_id users).
    apply submseteq_length, NoDup_submseteq; [apply attribute_NoDup|].
    intros x Hx. apply list_elem_of_In, in_map_iff in Hx as (c & <- & Hc).
    apply attribute_provenance in Hc as (u & e & Hu & _ & _ & _ & _ & ->).
    apply list_elem_of_In, in_map_iff. now exists u.
Qed.

Lemma generated_dataset_witness :
  unitDraws sample_rng /\ (1 <= cfg_users sample_config)%nat
  /\ cfg_startDate sample_config <= cfg_endDate sample_config
  /\ let d := Generator.generateMockData sample_rng sample_config in
     let events := snd (fst (Generator.generateInputs sample_rng sample_config 0%nat)) in
     Forall (generatedClick sample_config) (clickData d)
     /\ Forall (fun e => isClicked e = true ->
                         exists c, In c (clickData d) /\ user_id c = e_user_id e)
          events
     /\ length (clickData d)
        = length (firstSeen [] (List.map e_user_id (List.filter isClicked events)))
     /\ (length (clickData d) <= cfg_users sample_config)%nat.
Proof.
  split; [exact sample_rng_unit|]. split; [cbn; lia|]. split; [cbn; lia|].
  apply (generated_dataset sample_rng sample_config sample_rng_unit); cbn; lia.
Defined.

(** ** Order and size of the attributed clicks (lines 44-61 and 79) *)

Lemma sublist_Forall {A : Type} (P : A -> Prop) (l1 l2 : list A) :
  sublist l1 l2 -> Forall P l2 -> Forall P l1.
Proof.
  intros Hsub H. apply List.Forall_forall. intros x Hx.
  rewrite List.Forall_forall in H. apply H. now apply (sublist_In l1).
Qed.

Lemma sublist_StronglySorted {A : Type} (R : A -> A -> Prop) (l1 l2 : list A) :
  sublist l1 l2 -> StronglySorted R l2 -> StronglySorted R l1.
Proof.
  induction 1 as [|x l1 l2 Hsub IH|x l1 l2 Hsub IH]; intros Hs;
    [constructor| |].
  - apply StronglySorted_inv in Hs as [Hs Hx]. constructor; [now apply IH|].
    now apply (sublist_Forall _ l1 l2).
  - apply StronglySorted_inv in Hs as [Hs _]. now apply IH.
Qed.

Lemma newEntries_times users l : forall seen,
  sublist (List.map (fun kv => timestamp (snd kv)) (newEntries users seen l))
          (List.map e_timestamp l).
Proof.
  induction l as [|e l IH]; intros seen; cbn [newEntries List.map]; [constructor|].
  destruct (existsb _ seen); [constructor; apply IH|].
  destruct (findUser users (e_user_id e)); [|constructor; apply IH].
  cbn [List.map snd timestamp mergeUser]. constructor. apply IH.
Qed.

Lemma sorted_times l :
  StronglySorted byTimestamp l -> StronglySorted Z.le (List.map e_timestamp l).
Proof.
  induction 1 as [|x l Hs IH Hx]; cbn [List.map]; constructor; [exact IH|].
  apply List.Forall_forall. intros t Ht. apply in_map_iff in Ht as (y & <- & Hy).
  rewrite List.Forall_forall in Hx. now apply Hx.
Qed.

Lemma attribute_newEntries events users :
  attribute events users
  = List.map snd (newEntries users [] (clickEvents events)).
Proof.
  unfold attribute, attributedClicks, Map_values. now rewrite fold_attributeStep.
Qed.

Lemma newEntries_sorted users seen l :
  StronglySorted byTimestamp l ->
  StronglySorted Z.le
    (List.map (fun kv => timestamp (snd kv)) (newEntries users seen l)).
Proof.
  intros H. eapply sublist_StronglySorted; [apply newEntries_times|].
  now apply sorted_times.
Qed.

(** X6. For every event list and user list the attributed clicks come out
    in the order of their timestamps, earliest first. *)
Theorem attributed_clicks_in_time_order (events : list Event) (users : list User) :
  StronglySorted Z.le (List.map timestamp (attribute events users)).
Proof.
  rewrite attribute_newEntries, List.map_map.
  apply newEntries_sorted. unfold clickEvents. apply sortByTimestamp_sorted.
Qed.



Lemma filter_Permutation' {A : Type} (p : A -> bool) (l k : list A) :
  Permutation l k -> Permutation (List.filter p l) (List.filter p k).
Proof.
  induction 1 as [|x l k _ IH|x y l|l k m _ IH1 _ IH2]; cbn [List.filter].
  - constructor.
  - destruct (p x); [now constructor|exact IH].
  - destruct (p x), (p y); try reflexivity. apply perm_swap.
  - now transitivity (List.filter p k).
Qed.

(** X8. The order of the event list does not matter to attribution
    when no two click events have the same timestamp: a permutation of
    such events gives the same attributed clicks in the same order. *)
Theorem attribution_order_independent (events events' : list Event)
    (users : list User) :
  Permutation events events' ->
  NoDup (List.map e_timestamp (List.filter isClicked events)) ->
  attribute events' users = attribute events users.
Proof.
  intros Hperm Hnd. rewrite !attribute_newEntries. f_equal. f_equal.
  unfold clickEvents.
  apply (StronglySorted_unique_strong byTimestamp);
    try apply sortByTimestamp_sorted.
  - intros x y Hx Hy Hxy Hyx. unfold byTimestamp in *.
    assert (Ht : e_timestamp x = e_timestamp y) by lia.
    assert (Hx' : In x (List.filter isClicked events)).
    { apply list_elem_of_In in Hx.
      eapply Permutation_in; [|exact Hx].
      rewrite <- sortByTimestamp_perm. apply filter_Permutation'.
      now symmetry. }
    assert (Hy' : In y (List.filter isClicked events)).
    { apply list_elem_of_In in Hy.
      eapply Permutation_in; [|exact Hy]. symmetry. apply sortByTimestamp_perm. }
    clear - Ht Hx' Hy' Hnd.
    induction (List.filter isClicked events) as [|z l IH]; [destruct Hx'|].
    cbn [List.map] in Hnd. apply NoDup_cons in Hnd as [Hz Hnd].
    rewrite list_elem_of_In, in_map_iff in Hz.
    destruct Hx' as [->|Hx'], Hy' as [->|Hy']; try reflexivity.
    + destruct Hz. now exists y.
    + destruct Hz. now exists x.
    + now apply IH.
  - rewrite <- !sortByTimestamp_perm. apply filter_Permutation'. now symmetry.
Qed.

Lemma attribution_order_independent_witness :
  Permutation sample_events (rev sample_events)
  /\ NoDup (List.map e_timestamp (List.filter isClicked sample_events))
  /\ attribute (rev sample_events) sample_users
     = attribute sample_events sample_users.
Proof.
  assert (H1 : Permutation sample_events (rev sample_events))
    by apply Permutation_rev.
  assert (H2 : NoDup (List.map e_timestamp (List.filter isClicked sample_events))).
  { cbn. repeat (constructor; [rewrite list_elem_of_In; cbn; lia|]). constructor. }
  split; [exact H1|]. split; [exact H2|].
  exact (attribution_order_independent sample_events (rev sample_events)
           sample_users H1 H2).
Defined.

(** ** Ranges of the simulated transactions (lines 63-75) *)

Lemma simulateClick_withinRanges rng c i t :
  unitDraws rng -> fst (simulateClick rng c i) = Some t -> withinRanges t c.
Proof.
  intros Hrng. rewrite simulateClick_unfold.
  destruct (Hrng (S i)) as [Ha Hb]. destruct (Hrng (S (S i))) as [Hc Hd].
  set (v := Qfloor (rng (S i) * inject_Z (800 - 50 + 1))).
  set (dl := Qfloor (rng (S (S i))
                     * inject_Z (1000 * 60 * 60 * 24 - 1000 * 60 + 1))).
  assert (H1 : 0 <= v < 800 - 50 + 1)
    by (apply Qfloor_scaled_range; [exact Ha|exact Hb|lia]).
  assert (H2 : 0 <= dl < 1000 * 60 * 60 * 24 - 1000 * 60 + 1)
    by (apply Qfloor_scaled_range; [exact Hc|exact Hd|lia]).
  clearbody v dl.
  destruct (Qltb (rng i) (4 # 10)); [|discriminate].
  cbn [fst]. intros [= <-]. unfold withinRanges.
  cbn [t_user_id t_channel trx_volume t_timestamp].
  repeat split; lia.
Qed.

Lemma totalVolume_from acc ts :
  fold_left (fun a curr => a + trx_volume curr) ts acc
  = acc + Index.totalVolume ts.
Proof.
  unfold Index.totalVolume. revert acc.
  induction ts as [|t ts IH]; intros acc; cbn [fold_left]; [lia|].
  rewrite IH, (IH (0 + trx_volume t)). lia.
Qed.

Lemma totalVolume_cons t ts :
  Index.totalVolume (t :: ts) = trx_volume t + Index.totalVolume ts.
Proof.
  unfold Index.totalVolume at 1. cbn [fold_left]. rewrite totalVolume_from. lia.
Qed.

Lemma simulateFrom_cursor rng clicks : forall acc i,
  (snd (simulateFrom rng acc clicks i) + 2 * length acc
   = i + length clicks + 2 * length (fst (simulateFrom rng acc clicks i)))%nat.
Proof.
  induction clicks as [|c rest IH]; intros acc i; [cbn; lia|].
  rewrite simulateFrom_cons.
  specialize (IH (match fst (simulateClick rng c i) with
                  | Some t => acc ++ [t]
                  | None => acc
                  end) (snd (simulateClick rng c i))).
  rewrite simulateClick_unfold in *.
  destruct (Qltb (rng i) (4 # 10)); cbn [fst snd length] in *;
    rewrite ?length_app in IH; cbn [length] in IH; lia.
Qed.

(** X9. With draws in [0, 1) every simulated transaction has a volume
    from 50 to 800 and a timestamp from one minute to 24 hours after its
    click, so the total volume lies between 50 and 800 times the number
    of transactions; the simulation takes one draw for each click and two
    more for each transaction. *)
Theorem conversion_ranges (rng : nat -> Q) (clicks : list AttributedClick)
    (i : nat) :
  unitDraws rng ->
  let ts := fst (simulateConversions rng clicks i) in
  (exists picked, sublist picked clicks /\ Forall2 withinRanges ts picked)
  /\ 50 * Index.totalConversions ts <= Index.totalVolume ts
     <= 800 * Index.totalConversions ts
  /\ snd (simulateConversions rng clicks i)
     = (i + length clicks + 2 * length ts)%nat.
Proof.
  intros Hrng ts.
  destruct (simulateFrom_picks rng withinRanges
              (fun c k t => simulateClick_withinRanges rng c k t Hrng) clicks [] i)
    as (new & picked & Heq & Hsub & Hall).
  assert (Hts : ts = new) by exact Heq.
  split; [|split].
  - exists picked. now rewrite Hts.
  - rewrite Hts. clear - Hall. unfold Index.totalConversions.
    induction Hall as [|t c new picked (_ & _ & Hv & _) _ IH].
    + cbn. lia.
    + rewrite totalVolume_cons. cbn [length]. lia.
  - pose proof (simulateFrom_cursor rng clicks [] i) as H.
    unfold ts, simulateConversions. cbn [length] in H. lia.
Qed.

Lemma conversion_ranges_witness :
  unitDraws sample_rng
  /\ let ts := fst (simulateConversions sample_rng
                      (attribute sample_events sample_users) 0%nat) in
     (exists picked,
        sublist picked (attribute sample_events sample_users)
        /\ Forall2 withinRanges ts picked)
     /\ 50 * Index.totalConversions ts <= Index.totalVolume ts
        <= 800 * Index.totalConversions ts
     /\ snd (simulateConversions sample_rng
               (attribute sample_events sample_users) 0%nat)
        = (0 + length (attribute sample_events sample_users) + 2 * length ts)%nat.
Proof.
  split; [exact sample_rng_unit|].
  exact (conversion_ranges sample_rng (attribute sample_events sample_users)
           0%nat sample_rng_unit).
Defined.

(** ** Reach (lines 77-78) and the click-through rate (part_000, line 220) *)




(** X11. When every user with a click event also has a received event,
    the attributed clicks that pass the filters of part_000 are at most
    as many as the users reached, and the click-through rate is at most
    100. *)
Theorem click_through_rate_bounded (events : list Event) (users : list User)
    (rng : nat -> Q) (i : nat) (g : gmap string string) :
  Forall (fun e => isClicked e = true ->
                   exists e', In e' events /\ isReceived e' = true
                              /\ e_user_id e' = e_user_id e) events ->
  let d := generateFrom events users rng i in
  let fd := Part000.filteredData (clickData d) g in
  Part000.totalClicks fd <= ds_totalReached d
  /\ (Part000.clickThroughRate (ds_totalReached d) fd <= 100)%Q.
Proof.
  intros Hall d fd.
  assert (Hle : Part000.totalClicks fd <= ds_totalReached d).
  { unfold Part000.totalClicks, d, generateFrom. cbn [ds_totalReached clickData].
    fold (attribute events users) in *. unfold totalReached.
    apply Nat2Z.inj_le. transitivity (length (attribute events users)).
    { apply sublist_length, filter_sublist. }
    rewrite <- (length_map user_id). unfold size, set_size. cbn.
    apply submseteq_length, NoDup_submseteq; [apply attribute_NoDup|].
    intros x Hx. apply list_elem_of_In, in_map_iff in Hx as (c & <- & Hc).
    apply attribute_provenance in Hc as (u & e & _ & He & Hclick & Hid & _ & ->).
    rewrite List.Forall_forall in Hall.
    destruct (Hall e He Hclick) as (e' & He' & Hrec & Hid').
    rewrite elem_of_elements, elem_of_list_to_set, list_elem_of_In, in_map_iff.
    exists e'. cbn [user_id mergeUser].
    split; [congruence|now apply filter_In]. }
  split; [exact Hle|].
  destruct (rate_facts (Part000.totalClicks fd) (ds_totalReached d)
              (Part000.clickThroughRate (ds_totalReached d) fd))
    as (_ & _ & _ & H);
    [apply Nat2Z.is_nonneg|apply Nat2Z.is_nonneg|reflexivity|].
  apply H. now right.
Qed.

Lemma click_through_rate_bounded_witness :
  Forall (fun e => isClicked e = true ->
                   exists e', In e' reached_events /\ isReceived e' = true
                              /\ e_user_id e' = e_user_id e) reached_events
  /\ let d := generateFrom reached_events sample_users sample_rng 0 in
     let fd := Part000.filteredData (clickData d) sample_filters0 in
     Part000.totalClicks fd <= ds_totalReached d
     /\ (Part000.clickThroughRate (ds_totalReached d) fd <= 100)%Q.
Proof.
  assert (H : Forall (fun e => isClicked e = true ->
                exists e', In e' reached_events /\ isReceived e' = true
                           /\ e_user_id e' = e_user_id e) reached_events).
  { unfold reached_events. repeat constructor; intros Hc; try discriminate Hc.
    - exists (mkEvent "e4" "u1" 2 "push_received"). cbn. tauto.
    - exists (mkEvent "e4" "u1" 2 "push_received"). cbn. tauto.
    - exists (mkEvent "e5" "u2" 3 "popup_received"). cbn. tauto. }
  split; [exact H|].
  exact (click_through_rate_bounded reached_events sample_users sample_rng 0%nat
           sample_filters0 H).
Defined.

(** ** Filtering (index.tsx, lines 221-238; part_000, lines 175-186) *)

Lemma filter_idempotent {A : Type} (p : A -> bool) (l : list A) :
  List.filter p (List.filter p l) = List.filter p l.
Proof.
  induction l as [|x l IH]; [reflexivity|]. cbn [List.filter].
  destruct (p x) eqn:Hp; [|exact IH]. cbn [List.filter]. now rewrite Hp, IH.
Qed.

Lemma filter_all {A : Type} (p : A -> bool) (l : list A) :
  Forall (fun x => p x = true) l -> List.filter p l = l.
Proof.
  induction 1 as [|x l Hx _ IH]; [reflexivity|].
  cbn [List.filter]. now rewrite Hx, IH.
Qed.

(** X12. In both dashboards the filtered clicks are a subsequence of the
    clicks, in their order, and filtering the filtered clicks again with
    the same filters changes nothing; in part_000 a missing filter value
    admits no click. *)
Theorem filtering_is_a_selection
    (Date_parse : string -> option Z) (setHours_23_59_59_999 : Z -> Z)
    (f g : gmap string string) (clicks : list AttributedClick) :
  let fc := Index.filteredClicks Date_parse setHours_23_59_59_999 f clicks in
  let fd := Part000.filteredData clicks g in
  sublist fc clicks
  /\ sublist fd clicks
  /\ Index.filteredClicks Date_parse setHours_23_59_59_999 f fc = fc
  /\ Part000.filteredData fd g = fd
  /\ Part000.filteredData clicks (delete "sendCountry" g) = []
  /\ Part000.filteredData clicks (delete "customerType" g) = [].
Proof.
  intros fc fd. split; [apply filter_sublist|]. split; [apply filter_sublist|].
  split; [apply filter_idempotent|]. split; [apply filter_idempotent|].
  split; unfold Part000.filteredData.
  - rewrite lookup_delete_eq. induction clicks as [|c l IH]; [reflexivity|exact IH].
  - rewrite lookup_delete_eq. induction clicks as [|c l IH]; [reflexivity|].
    cbn [List.filter matchesFilter]. now rewrite andb_false_r.
Qed.

Lemma simulateClick_made rng c i t :
  fst (simulateClick rng c i) = Some t ->
  t_user_id t = user_id c /\ t_channel t = channel c.
Proof.
  rewrite simulateClick_unfold.
  destruct (Qltb (rng i) (4 # 10)); [|discriminate].
  cbn [fst]. intros [= <-]. now split.
Qed.

(** Every transaction has the user id and the channel of an attributed
    click. *)
Lemma transactions_of_clicks events users rng i t :
  In t (transactions (generateFrom events users rng i)) ->
  exists c, In c (clickData (generateFrom events users rng i))
            /\ user_id c = t_user_id t /\ channel c = t_channel t.
Proof.
  intros Ht.
  destruct (simulateFrom_picks rng
              (fun t c => t_user_id t = user_id c /\ t_channel t = channel c)
              (simulateClick_made rng) (attribute events users) [] i)
    as (new & picked & Heq & Hsub & Hall).
  assert (Hts : transactions (generateFrom events users rng i) = new) by exact Heq.
  rewrite Hts in Ht.
  change (clickData (generateFrom events users rng i))
    with (attribute events users).
  clear Heq Hts. revert Hsub.
  generalize (attribute events users) as clicks.
  induction Hall as [|t' c new picked [Hid Hch] _ IH]; intros clicks Hsub;
    [destruct Ht|].
  assert (Hc : In c clicks) by (apply (sublist_In _ _ _ Hsub); now left).
  destruct Ht as [<-|Ht].
  - exists c. now repeat split.
  - apply IH; [exact Ht|]. transitivity (c :: picked); [|exact Hsub].
    now apply sublist_cons.
Qed.

Lemma filteredTrans_all events users rng i :
  let d := generateFrom events users rng i in
  Index.filteredTrans (clickData d) (transactions d) = transactions d.
Proof.
  intros d. unfold Index.filteredTrans. apply filter_all.
  apply List.Forall_forall. intros t Ht. apply bool_decide_eq_true.
  apply has_user_id.
  destruct (transactions_of_clicks events users rng i t Ht) as (c & Hc & Hid & _).
  now exists c.
Qed.

(** X13. In part_000, with both filters at [all] (the initial state) the
    dashboard shows every attributed click and every transaction of the
    dataset. *)
Theorem part000_unfiltered_is_complete (events : list Event) (users : list User)
    (rng : nat -> Q) (i : nat) (g : gmap string string) :
  g !! "sendCountry" = Some "all" -> g !! "customerType" = Some "all" ->
  let d := generateFrom events users rng i in
  Part000.filteredData (clickData d) g = clickData d
  /\ Part000.filteredTransactions (Part000.filteredData (clickData d) g)
       (transactions d) = transactions d.
Proof.
  intros H1 H2 d.
  assert (Hfd : Part000.filteredData (clickData d) g = clickData d).
  { unfold Part000.filteredData. rewrite H1, H2. apply filter_all.
    apply List.Forall_forall. now intros c _. }
  split; [exact Hfd|].
  rewrite Hfd, filteredTransactions_eq. apply filteredTrans_all.
Qed.

Lemma part000_unfiltered_is_complete_witness :
  sample_filters0 !! "sendCountry" = Some "all"
  /\ sample_filters0 !! "customerType" = Some "all"
  /\ let d := generateFrom sample_events sample_users sample_rng 0 in
     Part000.filteredData (clickData d) sample_filters0 = clickData d
     /\ Part000.filteredTransactions
          (Part000.filteredData (clickData d) sample_filters0)
          (transactions d) = transactions d.
Proof.
  split; [reflexivity|]. split; [reflexivity|].
  apply (part000_unfiltered_is_complete sample_events sample_users sample_rng
           0%nat sample_filters0); reflexivity.
Defined.

(** X14. In index.tsx, with country, device and platform at [all] and
    valid start and end dates whose range holds the time of every click
    event, the dashboard shows every attributed click and every
    transaction of the dataset. *)
Theorem index_unfiltered_is_complete
    (Date_parse : string -> option Z) (setHours_23_59_59_999 : Z -> Z)
    (events : list Event) (users : list User) (rng : nat -> Q) (i : nat)
    (f : gmap string string) (s e : Z) :
  f !! "country" = Some "all" -> f !! "device" = Some "all" ->
  f !! "platform" = Some "all" ->
  Index.startOf Date_parse f = Some s ->
  Index.endOf Date_parse setHours_23_59_59_999 f = Some e ->
  Forall (fun ev => isClicked ev = true -> s <= e_timestamp ev <= e) events ->
  let d := generateFrom events users rng i in
  let fc := Index.filteredClicks Date_parse setHours_23_59_59_999 f (clickData d) in
  fc = clickData d /\ Index.filteredTrans fc (transactions d) = transactions d.
Proof.
  intros H1 H2 H3 Hs He Hrange d fc.
  assert (Hfc : fc = clickData d).
  { unfold fc, Index.filteredClicks, Index.categoricalMatch.
    rewrite Hs, He, H1, H2, H3. apply filter_all.
    apply List.Forall_forall. intros c Hc.
    apply attribute_provenance in Hc as (u & ev & _ & Hev & Hclick & _ & _ & ->).
    rewrite List.Forall_forall in Hrange. specialize (Hrange ev Hev Hclick).
    cbn [timestamp mergeUser Date_ge Date_le matchesFilter String.eqb orb andb].
    rewrite !andb_true_r, andb_true_iff, !Z.leb_le. lia. }
  split; [exact Hfc|]. rewrite Hfc. apply filteredTrans_all.
Qed.

Lemma index_unfiltered_is_complete_witness :
  sample_filters !! "country" = Some "all"
  /\ sample_filters !! "device" = Some "all"
  /\ sample_filters !! "platform" = Some "all"
  /\ Index.startOf isoDate sample_filters = Some 0
  /\ Index.endOf isoDate endOfDayUTC sample_filters = Some 86399999
  /\ Forall (fun ev => isClicked ev = true -> 0 <= e_timestamp ev <= 86399999)
       sample_events
  /\ let d := generateFrom sample_events sample_users sample_rng 0 in
     let fc := Index.filteredClicks isoDate endOfDayUTC sample_filters (clickData d) in
     fc = clickData d /\ Index.filteredTrans fc (transactions d) = transactions d.
Proof.
  assert (H : Forall (fun ev => isClicked ev = true
                               -> 0 <= e_timestamp ev <= 86399999) sample_events).
  { unfold sample_events. repeat (constructor; [cbn; intros _; lia|]).
    constructor. }
  repeat (split; [reflexivity|]). split; [exact H|].
  apply (index_unfiltered_is_complete isoDate endOfDayUTC sample_events
           sample_users sample_rng 0%nat sample_filters 0 86399999);
    try reflexivity; exact H.
Defined.

(** ** The table and the drill-down (index.tsx, lines 282-297) *)

Lemma filteredTableData_sublist data cf :
  sublist (Index.filteredTableData data cf) data.
Proof.
  destruct cf as [[cat v]|]; [|reflexivity]. cbn [Index.filteredTableData].
  destruct (String.eqb cat "customer_type"); [apply filter_sublist|].
  destruct (String.eqb cat "age"); apply filter_sublist.
Qed.

(** X15. Whatever the filters and the drill-down, the rows of the table
    are attributed clicks of the dataset in their order: no user id
    occurs in two rows, and the rows are in the order of their
    timestamps. *)
Theorem table_rows_are_distinct_clicks
    (Date_parse : string -> option Z) (setHours_23_59_59_999 : Z -> Z)
    (events : list Event) (users : list User) (rng : nat -> Q) (i : nat)
    (f : gmap string string) (cf : option Index.ChartFilter) :
  let d := generateFrom events users rng i in
  let rows :=
    Index.filteredTableData
      (Index.filteredClicks Date_parse setHours_23_59_59_999 f (clickData d)) cf in
  sublist rows (clickData d)
  /\ NoDup (List.map user_id rows)
  /\ StronglySorted Z.le (List.map timestamp rows).
Proof.
  intros d rows.
  assert (Hsub : sublist rows (clickData d)).
  { transitivity (Index.filteredClicks Date_parse setHours_23_59_59_999 f
                    (clickData d));
      [apply filteredTableData_sublist|apply filter_sublist]. }
  split; [exact Hsub|]. split.
  - eapply sublist_NoDup; [apply attribute_NoDup|apply sublist_map, Hsub].
  - eapply sublist_StronglySorted; [apply sublist_map, Hsub|].
    change (clickData d) with (attribute events users).
    rewrite attribute_newEntries, List.map_map.
    apply newEntries_sorted, sortByTimestamp_sorted.
Qed.

Lemma length_filter_occurrences {A : Type} (keyOf : A -> string) (v : string)
    (data : list A) :
  Z.of_nat (length (List.filter (fun d => String.eqb (keyOf d) v) data))
  = occurrences v (List.map keyOf data).
Proof.
  unfold occurrences. f_equal.
  induction data as [|d data IH]; [reflexivity|].
  cbn [List.filter List.map]. rewrite (String.eqb_sym v).
  destruct (String.eqb (keyOf d) v); cbn [length]; now rewrite IH.
Qed.

Lemma reduceToCount_get data key v :
  orZero (Obj_get (reduceToCount data key) v)
  = occurrences v (List.map (field key) data).
Proof.
  change (reduceToCount data key) with (countInto (field key) [] data).
  rewrite countInto_get. cbn [Obj_get orZero].
  destruct (Z.eqb_spec (occurrences v (List.map (field key) data)) 0) as [->|_];
    [reflexivity|cbn; lia].
Qed.

(** X16. For a chart of channel, gender, send_country, device_info or
    platform_type, a click on a bar lists as many rows as the bar counts:
    the rows of the drill-down on a value are the clicks that the grouped
    count counts for it. *)
Theorem drill_down_matches_bar (data : list AttributedClick) (key : Dimension)
    (v : string) :
  key <> CustomerType ->
  let rows :=
    Index.filteredTableData data
      (Some (Index.mkChartFilter (dimensionName key) v)) in
  rows = List.filter (fun d => String.eqb (field key d) v) data
  /\ Z.of_nat (length rows) = orZero (Obj_get (reduceToCount data key) v).
Proof.
  intros Hkey rows.
  assert (Hrows : rows = List.filter (fun d => String.eqb (field key d) v) data).
  { unfold rows. destruct key; try contradiction; reflexivity. }
  split; [exact Hrows|].
  now rewrite Hrows, reduceToCount_get, length_filter_occurrences.
Qed.

Lemma drill_down_matches_bar_witness :
  Channel <> CustomerType
  /\ let data := attribute sample_events sample_users in
     let rows :=
       Index.filteredTableData data
         (Some (Index.mkChartFilter (dimensionName Channel) "Popup")) in
     rows = List.filter (fun d => String.eqb (field Channel d) "Popup") data
     /\ Z.of_nat (length rows)
        = orZero (Obj_get (reduceToCount data Channel) "Popup").
Proof.
  split; [discriminate|].
  apply (drill_down_matches_bar (attribute sample_events sample_users) Channel
           "Popup").
  discriminate.
Defined.

Lemma inAgeRange_bucket a l :
  18 <= a -> In l AGE_LABELS ->
  Index.inAgeRange l a = String.eqb l (Index.ageBucket a).
Proof.
  intros Ha Hl. apply eq_true_iff_eq. rewrite String.eqb_eq.
  unfold AGE_LABELS in Hl. cbn [In] in Hl. unfold Index.inAgeRange.
  destruct Hl as [<-|[<-|[<-|[<-|[<-|[]]]]]];
    match goal with
    | |- context [Index.ageRange ?l] =>
        let r := eval vm_compute in (Index.ageRange l) in
        change (Index.ageRange l) with r
    end;
    cbv beta iota; rewrite ?andb_true_iff, ?Z.leb_le;
    unfold Index.ageBucket;
    repeat match goal with
           | |- context [?x <=? ?y] => destruct (Z.leb_spec x y)
           end;
    split; intros; try discriminate; try reflexivity; try lia.
Qed.

Lemma ageGroups_get data l :
  In l AGE_LABELS ->
  orZero (Obj_get (Index.ageGroups data) l)
  = occurrences l (List.map (fun c => Index.ageBucket (age c)) data).
Proof.
  intros Hl. rewrite ageGroups_countInto, countInto_get.
  assert (H0 : Obj_get Index.ageGroups0 l = Some 0).
  { unfold AGE_LABELS in Hl. cbn in Hl. intuition (subst; reflexivity). }
  rewrite H0.
  now destruct (Z.eqb_spec
                  (occurrences l (List.map (fun c => Index.ageBucket (age c)) data))
                  0) as [->|_].
Qed.

(** X17. For clicks of age 18 or more, a click on a bar of the age chart
    lists as many rows as the bar counts: the rows of the drill-down on a
    label are the clicks counted under it. *)
Theorem age_drill_down_matches_bar (data : list AttributedClick) (l : string) :
  Forall (fun d => 18 <= age d) data -> In l AGE_LABELS ->
  let rows := Index.filteredTableData data (Some (Index.mkChartFilter "age" l)) in
  rows = List.filter (fun d => String.eqb (Index.ageBucket (age d)) l) data
  /\ Z.of_nat (length rows) = orZero (Obj_get (Index.ageGroups data) l).
Proof.
  intros Hages Hl rows.
  assert (Hrows : rows
            = List.filter (fun d => String.eqb (Index.ageBucket (age d)) l) data).
  { unfold rows. cbn [Index.filteredTableData String.eqb Ascii.eqb Bool.eqb].
    apply filter_ext_in. intros d Hd.
    rewrite List.Forall_forall in Hages.
    rewrite inAgeRange_bucket by auto. apply String.eqb_sym. }
  split; [exact Hrows|].
  rewrite Hrows, ageGroups_get by exact Hl.
  apply (length_filter_occurrences (fun d => Index.ageBucket (age d))).
Qed.

Lemma age_drill_down_matches_bar_witness :
  Forall (fun d => 18 <= age d) [sample_click 25; sample_click 26; sample_click 56]
  /\ In "26-35" AGE_LABELS
  /\ let data := [sample_click 25; sample_click 26; sample_click 56] in
     let rows :=
       Index.filteredTableData data (Some (Index.mkChartFilter "age" "26-35")) in
     rows = List.filter (fun d => String.eqb (Index.ageBucket (age d)) "26-35") data
     /\ Z.of_nat (length rows) = orZero (Obj_get (Index.ageGroups data) "26-35").
Proof.
  assert (H : Forall (fun d => 18 <= age d)
                [sample_click 25; sample_click 26; sample_click 56])
    by (repeat (constructor; [cbn; lia|]); constructor).
  assert (Hl : In "26-35" AGE_LABELS) by (cbn; tauto).
  split; [exact H|]. split; [exact Hl|].
  exact (age_drill_down_matches_bar _ "26-35" H Hl).
Defined.

(** A click of an age under 18 is counted under 18-25 but is not listed
    by the drill-down on that bar. *)
Example age_under_18 :
  Obj_get (Index.ageGroups [sample_click 10]) "18-25" = Some 1
  /\ Index.filteredTableData [sample_click 10]
       (Some (Index.mkChartFilter "age" "18-25")) = [].
Proof. split; reflexivity. Qed.

(** ** The customer type chart (index.tsx, lines 264-267 and 287-289) *)

Lemma Obj_get_None o k : Obj_get o k = None <-> ~ In k (Obj_keys o).
Proof.
  rewrite <- existsb_eqb_In, Obj_get_keys.
  destruct (Obj_get o k); split; intros H; try reflexivity; try discriminate.
  now destruct H.
Qed.

Lemma Obj_set_fresh o k v : Obj_get o k = None -> Obj_set o k v = o ++ [(k, v)].
Proof.
  induction o as [|[k0 v0] o IH]; cbn; [reflexivity|].
  destruct (String.eqb k0 k); [discriminate|]. intros H. now rewrite IH.
Qed.

Lemma reduceToCount_closed data key :
  reduceToCount data key
  = List.map (fun k => (k, occurrences k (List.map (field key) data)))
      (firstSeen [] (List.map (field key) data)).
Proof.
  set (values := List.map (field key) data).
  assert (Hkeys : Obj_keys (reduceToCount data key) = firstSeen [] values)
    by apply (countInto_keys (field key) data []).
  rewrite <- Hkeys. apply Obj_of_keys.
  - rewrite Hkeys. apply firstSeen_NoDup.
  - intros k Hk. rewrite Hkeys in Hk. apply firstSeen_In in Hk as [Hk _].
    change (reduceToCount data key) with (countInto (field key) [] data).
    rewrite countInto_get. fold values. cbn [Obj_get orZero].
    destruct (Z.eqb_spec (occurrences k values) 0) as [H0|_];
      [|now rewrite Z.add_0_l].
    now apply occurrences_zero in H0.
Qed.

Lemma formatted_from (o : Obj) : forall acc : Obj,
  NoDup (Obj_keys acc ++ List.map (fun kv => JsString.capitalize (fst kv)) o) ->
  fold_left (fun acc kv => Obj_set acc (JsString.capitalize (fst kv)) (snd kv))
    o acc
  = acc ++ List.map (fun kv => (JsString.capitalize (fst kv), snd kv)) o.
Proof.
  induction o as [|[k v] o IH]; intros acc Hnd; cbn [fold_left List.map fst snd].
  - now rewrite app_nil_r.
  - cbn [List.map fst] in Hnd.
    rewrite Obj_set_fresh.
    + rewrite IH; [now rewrite <- app_assoc|].
      unfold Obj_keys in *. rewrite List.map_app, <- app_assoc. exact Hnd.
    + apply Obj_get_None. intros Hin.
      apply NoDup_app in Hnd as (_ & Hdis & _).
      apply (Hdis (JsString.capitalize k)); [now apply list_elem_of_In|].
      left.
Qed.

Lemma capitalize_customer_types a b :
  In a Generator.CUSTOMER_TYPES -> In b Generator.CUSTOMER_TYPES ->
  (JsString.capitalize a = JsString.capitalize b -> a = b)
  /\ String.eqb (JsString.toLowerCase a)
       (JsString.toLowerCase (JsString.capitalize b))
     = String.eqb a b.
Proof.
  unfold Generator.CUSTOMER_TYPES. cbn [In].
  intros [<-|[<-|[<-|[]]]] [<-|[<-|[<-|[]]]]; split;
    try reflexivity; intros H; try reflexivity; discriminate H.
Qed.

Lemma NoDup_map_on {A B : Type} (f : A -> B) (l : list A) :
  (forall a b, In a l -> In b l -> f a = f b -> a = b) ->
  NoDup l -> NoDup (List.map f l).
Proof.
  induction l as [|x l IH]; intros Hinj Hnd; cbn [List.map]; [constructor|].
  apply NoDup_cons in Hnd as [Hx Hnd]. constructor.
  - rewrite list_elem_of_In, in_map_iff. intros (y & Hy & Hin).
    apply Hinj in Hy; [|now right|now left]. subst y.
    now apply Hx, list_elem_of_In.
  - apply IH; [|exact Hnd]. intros a b Ha Hb. apply Hinj; now right.
Qed.



(** With customer types that differ in the case of the first letter
    only, the chart keeps one bar with the count of the last one. *)
Example customer_type_labels_collide :
  let data := [sample_click 30;
               mkClick "u2" "Male" 40 "UK" "India" "Active" "iOS" "app" "Push" 6;
               mkClick "u3" "Male" 41 "UK" "India" "Active" "iOS" "app" "Push" 7] in
  Index.customerTypeDistribution (Index.analytics 1 data []) = [("Active", 2)]
  /\ length (Index.filteredTableData data
               (Some (Index.mkChartFilter "customer_type" "Active"))) = 3%nat.
Proof. split; reflexivity. Qed.

(** ** Volume and conversions by channel (part_000, lines 195-203) *)

Lemma sumValues_set o k w :
  sumValues (Obj_set o k (orZero (Obj_get o k) + w)) = sumValues o + w.
Proof.
  unfold sumValues.
  induction o as [|[k0 v0] o IH]; cbn [Obj_set Obj_get orZero List.map snd fold_right];
    [lia|].
  destruct (String.eqb k0 k); cbn [List.map snd fold_right orZero]; [lia|].
  rewrite IH. lia.
Qed.

Section Summing.

Context {A : Type} (keyOf : A -> string) (weight : A -> Z).

Lemma sumInto_cons acc x data :
  sumInto keyOf weight acc (x :: data)
  = sumInto keyOf weight
      (Obj_set acc (keyOf x) (orZero (Obj_get acc (keyOf x)) + weight x)) data.
Proof. reflexivity. Qed.

Lemma weightOf_cons k x data :
  weightOf keyOf weight k (x :: data)
  = (if String.eqb (keyOf x) k then weight x else 0)
    + weightOf keyOf weight k data.
Proof.
  unfold weightOf. cbn [List.filter].
  destruct (String.eqb (keyOf x) k); cbn [List.map fold_right]; lia.
Qed.

(** The value of a key after the reduction. *)
Lemma sumInto_get data : forall acc k,
  Obj_get (sumInto keyOf weight acc data) k
  = if occurrences k (List.map keyOf data) =? 0 then Obj_get acc k
    else Some (orZero (Obj_get acc k) + weightOf keyOf weight k data).
Proof.
  induction data as [|x data IH]; intros acc k; [reflexivity|].
  rewrite sumInto_cons. cbn [List.map].
  rewrite IH, Obj_get_set, occurrences_cons, weightOf_cons, (String.eqb_sym k).
  pose proof (occurrences_nonneg k (List.map keyOf data)) as Hn.
  destruct (String.eqb_spec (keyOf x) k) as [Heq|Hne]; [subst k|].
  - set (n := occurrences (keyOf x) (List.map keyOf data)) in *.
    destruct (Z.eqb_spec (1 + n) 0) as [H1|_]; [lia|].
    destruct (Z.eqb_spec n 0) as [H0|_]; cbn [orZero]; f_equal; [|lia].
    assert (Hnone : List.filter (fun y => String.eqb (keyOf y) (keyOf x)) data = []).
    { apply occurrences_zero in H0.
      destruct (List.filter _ data) as [|y l] eqn:Hf; [reflexivity|].
      assert (Hy : In y (List.filter (fun y => String.eqb (keyOf y) (keyOf x)) data))
        by (rewrite Hf; now left).
      apply filter_In in Hy as [Hy Hk]. apply String.eqb_eq in Hk.
      destruct H0. rewrite <- Hk. now apply in_map. }
    unfold weightOf.
    rewrite Hnone. cbn. lia.
  - now rewrite !Z.add_0_l.
Qed.

Lemma sumInto_keys data : forall acc,
  Obj_keys (sumInto keyOf weight acc data)
  = Obj_keys acc ++ firstSeen (Obj_keys acc) (List.map keyOf data).
Proof.
  induction data as [|x data IH]; intros acc.
  - cbn. now rewrite app_nil_r.
  - rewrite sumInto_cons. cbn [List.map firstSeen].
    rewrite IH, Obj_keys_set, Obj_get_keys.
    destruct (Obj_get acc (keyOf x)); [reflexivity|].
    now rewrite <- app_assoc.
Qed.

Lemma sumInto_total data : forall acc,
  sumValues (sumInto keyOf weight acc data)
  = sumValues acc + fold_right Z.add 0 (List.map weight data).
Proof.
  induction data as [|x data IH]; intros acc.
  - unfold sumInto. cbn [fold_left List.map fold_right]. lia.
  - rewrite sumInto_cons, IH, sumValues_set. cbn [List.map fold_right]. lia.
Qed.

Lemma sumInto_closed data :
  sumInto keyOf weight [] data
  = List.map (fun k => (k, weightOf keyOf weight k data))
      (firstSeen [] (List.map keyOf data)).
Proof.
  assert (Hkeys : Obj_keys (sumInto keyOf weight [] data)
                  = firstSeen [] (List.map keyOf data))
    by apply (sumInto_keys data []).
  rewrite <- Hkeys. apply Obj_of_keys.
  - rewrite Hkeys. apply firstSeen_NoDup.
  - intros k Hk. rewrite Hkeys in Hk. apply firstSeen_In in Hk as [Hk _].
    rewrite sumInto_get. cbn [Obj_get orZero].
    destruct (Z.eqb_spec (occurrences k (List.map keyOf data)) 0) as [H0|_];
      [|now rewrite Z.add_0_l].
    now apply occurrences_zero in H0.
Qed.

End Summing.

Lemma totalVolume_sum ts :
  Index.totalVolume ts = fold_right Z.add 0 (List.map trx_volume ts).
Proof.
  induction ts as [|t ts IH]; [reflexivity|].
  rewrite totalVolume_cons, IH. reflexivity.
Qed.

Lemma weightOf_one {A : Type} (keyOf : A -> string) (k : string) (data : list A) :
  weightOf keyOf (fun _ => 1) k data = occurrences k (List.map keyOf data).
Proof.
  rewrite <- length_filter_occurrences. unfold weightOf.
  induction (List.filter (fun x => String.eqb (keyOf x) k) data) as [|x l IH];
    [reflexivity|].
  cbn [List.map fold_right length]. rewrite IH. lia.
Qed.

(** X19. In part_000 the volume by channel and the conversions by
    channel have one key for each channel among the filtered
    transactions, in the order in which the channels are met first; the
    volume of a channel is the sum of the volumes of its transactions and
    its conversions are their number; the volumes add up to the total
    volume of index.tsx and the conversions to the number of
    transactions. *)
Theorem volume_and_conversions_by_channel (ts : list Transaction) :
  let channels := firstSeen [] (List.map t_channel ts) in
  Part000.transactionVolume ts
  = List.map (fun ch => (ch, weightOf t_channel trx_volume ch ts)) channels
  /\ Part000.conversions ts
     = List.map (fun ch => (ch, occurrences ch (List.map t_channel ts))) channels
  /\ sumValues (Part000.transactionVolume ts) = Index.totalVolume ts
  /\ sumValues (Part000.conversions ts) = Index.totalConversions ts.
Proof.
  intros channels.
  change (Part000.transactionVolume ts) with (sumInto t_channel trx_volume [] ts).
  change (Part000.conversions ts) with (sumInto t_channel (fun _ => 1) [] ts).
  split; [apply sumInto_closed|]. split; [|split].
  - rewrite sumInto_closed. apply map_ext. intros ch. now rewrite weightOf_one.
  - rewrite sumInto_total, totalVolume_sum. reflexivity.
  - rewrite sumInto_total. unfold Index.totalConversions, sumValues.
    cbn [List.map fold_right]. clear channels.
    assert (H : fold_right Z.add 0 (List.map (fun _ : Transaction => 1) ts)
                = Z.of_nat (length ts)).
    { induction ts as [|t ts IH]; [reflexivity|].
      cbn [List.map fold_right length]. rewrite IH. lia. }
    rewrite H. lia.
Qed.

Lemma NoDup_map_same {A : Type} (f : A -> string) (l : list A) a b :
  NoDup (List.map f l) -> In a l -> In b l -> f a = f b -> a = b.
Proof.
  induction l as [|x l IH]; intros Hnd Ha Hb Hf; [destruct Ha|].
  cbn [List.map] in Hnd. apply NoDup_cons in Hnd as [Hx Hnd].
  rewrite list_elem_of_In, in_map_iff in Hx.
  destruct Ha as [->|Ha], Hb as [->|Hb]; try reflexivity.
  - destruct Hx. now exists b.
  - destruct Hx. now exists a.
  - now apply IH.
Qed.

(** X20. In part_000, whatever the filters, the conversions of a channel
    are at most the clicks of that channel: no bar of the conversions
    chart is higher than the bar of its channel in the clicks chart. *)
Theorem conversions_within_clicks (events : list Event) (users : list User)
    (rng : nat -> Q) (i : nat) (g : gmap string string) (ch : string) :
  let d := generateFrom events users rng i in
  let fd := Part000.filteredData (clickData d) g in
  let ft := Part000.filteredTransactions fd (transactions d) in
  let a := Part000.analytics fd ft in
  0 <= orZero (Obj_get (Part000.a_conversions a) ch)
    <= orZero (Obj_get (Part000.a_channel a) ch).
Proof.
  intros d fd ft a. unfold a.
  cbn [Part000.analytics Part000.a_conversions Part000.a_channel].
  unfold Part000.countBy. rewrite reduceToCount_get.
  change (Part000.conversions ft) with (countInto t_channel [] ft).
  rewrite countInto_get. cbn [Obj_get orZero].
  replace (orZero (if occurrences ch (List.map t_channel ft) =? 0 then None
                   else Some (0 + occurrences ch (List.map t_channel ft))))
    with (occurrences ch (List.map t_channel ft))
    by (destruct (Z.eqb_spec (occurrences ch (List.map t_channel ft)) 0) as [->|_];
        cbn; lia).
  split; [apply occurrences_nonneg|].
  rewrite <- (length_filter_occurrences t_channel),
    <- (length_filter_occurrences (field Channel)).
  apply Nat2Z.inj_le.
  rewrite <- (length_map t_user_id), <- (length_map user_id).
  apply submseteq_length, NoDup_submseteq.
  - eapply sublist_NoDup; [apply (transactions_NoDup events users rng i)|].
    apply sublist_map. transitivity ft; [apply filter_sublist|].
    unfold ft. rewrite filteredTransactions_eq. apply filter_sublist.
  - intros x Hx. apply list_elem_of_In, in_map_iff in Hx as (t & <- & Ht).
    apply filter_In in Ht as [Ht Hch]. apply String.eqb_eq in Hch.
    unfold ft in Ht. rewrite filteredTransactions_eq in Ht.
    apply filteredTrans_In in Ht as (Ht & c & Hc & Hid).
    destruct (transactions_of_clicks events users rng i t Ht)
      as (c0 & Hc0 & Hid0 & Hch0).
    assert (Hcd : In c (clickData d))
      by (apply (sublist_In fd); [apply filter_sublist|exact Hc]).
    assert (c = c0).
    { apply (NoDup_map_same user_id (clickData d)); try assumption;
        [apply attribute_NoDup|congruence]. }
    subst c0. apply list_elem_of_In, in_map_iff. exists c. split; [exact Hid|].
    apply filter_In. split; [exact Hc|]. apply String.eqb_eq. cbn [field].
    congruence.
Qed.

(** ** The options of the selects (part_000, lines 170-180 and 216-217) *)

(** X21. In part_000, with the customer type at [all], every option of
    the country select shows at least one click when there is a click at
    all: the options are [all] and then the distinct countries of the
    clicks, without repetition, and the option of a country shows the
    clicks of that country only. *)
Theorem country_options_show_clicks (clicks : list AttributedClick)
    (g : gmap string string) (o : string) :
  g !! "customerType" = Some "all" ->
  In o (uniqueOptions SendCountry clicks) ->
  clicks <> [] ->
  let fd :=
    Part000.filteredData clicks (Part000.handleFilterChange "sendCountry" o g) in
  fd <> []
  /\ Forall (fun c => o = "all" \/ send_country c = o) fd
  /\ NoDup (tl (uniqueOptions SendCountry clicks))
  /\ Forall (fun c => In (send_country c) (uniqueOptions SendCountry clicks)) clicks.
Proof.
  intros Hct Ho Hne fd.
  assert (Hfd : fd = List.filter
                       (fun d => (String.eqb o "all" || String.eqb (send_country d) o)%bool)
                       clicks).
  { unfold fd, Part000.filteredData, Part000.handleFilterChange.
    rewrite lookup_insert_eq, lookup_insert_ne by discriminate. rewrite Hct.
    apply filter_ext. intros d. cbn [matchesFilter String.eqb Ascii.eqb Bool.eqb orb].
    now rewrite andb_true_r. }
  split; [|split; [|split]].
  - rewrite Hfd. destruct (String.eqb_spec o "all") as [->|Hall].
    + cbn [orb]. rewrite filter_all; [exact Hne|].
      apply List.Forall_forall. now intros.
    + destruct Ho as [Ho|Ho]; [congruence|].
      apply firstSeen_In in Ho as [Ho _].
      apply in_map_iff in Ho as (c & Hc & Hin).
      intros Hnil.
      assert (H : In c (List.filter
                          (fun d => (false || String.eqb (send_country d) o)%bool)
                          clicks)).
      { apply filter_In. split; [exact Hin|]. cbn [orb field] in *.
        now apply String.eqb_eq. }
      rewrite Hnil in H. destruct H.
  - rewrite Hfd. apply List.Forall_forall. intros c Hc.
    apply filter_In in Hc as [_ Hc]. apply orb_true_iff in Hc as [Hc|Hc];
      apply String.eqb_eq in Hc; auto.
  - cbn [uniqueOptions tl]. apply firstSeen_NoDup.
  - apply List.Forall_forall. intros c Hc. right.
    apply firstSeen_In. split; [|intros []].
    now apply (in_map (field SendCountry)).
Qed.

Lemma country_options_show_clicks_witness :
  sample_filters0 !! "customerType" = Some "all"
  /\ In "UK" (uniqueOptions SendCountry (attribute sample_events sample_users))
  /\ attribute sample_events sample_users <> []
  /\ let clicks := attribute sample_events sample_users in
     let fd :=
       Part000.filteredData clicks
         (Part000.handleFilterChange "sendCountry" "UK" sample_filters0) in
     fd <> []
     /\ Forall (fun c => "UK" = "all" \/ send_country c = "UK") fd
     /\ NoDup (tl (uniqueOptions SendCountry clicks))
     /\ Forall (fun c => In (send_country c) (uniqueOptions SendCountry clicks))
          clicks.
Proof.
  split; [reflexivity|]. split; [cbn; tauto|]. split; [discriminate|].
  apply (country_options_show_clicks (attribute sample_events sample_users)
           sample_filters0 "UK"); [reflexivity|cbn; tauto|discriminate].
Defined.

(** ** Bar charts (index.tsx, lines 105-145) *)

Lemma maxValue_bounds (data : Obj) :
  0 <= BarChart.maxValue data
  /\ Forall (fun kv => snd kv <= BarChart.maxValue data) data.
Proof.
  unfold BarChart.maxValue.
  induction data as [|[k v] data [IH0 IH]]; cbn [List.map fold_right snd].
  - split; [lia|constructor].
  - set (m := fold_right Z.max 0 (List.map snd data)) in *.
    pose proof (Z.le_max_l v m). pose proof (Z.le_max_r v m).
    split; [lia|]. constructor; [exact H|].
    eapply List.Forall_impl; [|exact IH]. cbn beta. intros kv Hkv. lia.
Qed.

Lemma maxValue_attained (data : Obj) :
  BarChart.maxValue data = 0
  \/ exists kv, In kv data /\ snd kv = BarChart.maxValue data.
Proof.
  unfold BarChart.maxValue.
  induction data as [|[k v] data IH]; cbn [List.map fold_right snd]; [now left|].
  destruct (Z.max_spec v (fold_right Z.max 0 (List.map snd data))) as [[_ ->]|[_ ->]].
  - destruct IH as [IH|(kv & Hin & Hkv)]; [now left|].
    right. exists kv. split; [now right|exact Hkv].
  - right. exists (k, v). split; [now left|reflexivity].
Qed.

Lemma height_bounds m v :
  0 <= v <= m -> (0 <= BarChart.height m v)%Q /\ (BarChart.height m v <= 100)%Q.
Proof.
  intros Hv. unfold BarChart.height.
  destruct (Z.ltb_spec 0 m) as [Hm|Hm]; [|split; discriminate].
  fold (pct v m). rewrite pct_nonneg by exact Hm.
  change 100%Q with (inject_Z 1 * 100)%Q. rewrite pct_le by exact Hm. lia.
Qed.

Lemma height_full m : 0 < m -> BarChart.height m m == 100.
Proof.
  intros Hm. unfold BarChart.height.
  destruct (Z.ltb_spec 0 m) as [_|Hle]; [|lia].
  unfold Z_to_Q, Qeq, Qdiv, Qmult, Qinv, inject_Z.
  destruct m as [|p|p]; try lia. cbn.
  rewrite ?Pos.mul_1_r, ?Z.mul_1_r. lia.
Qed.

Lemma occurrences_NoDup v (l : list string) : NoDup l -> occurrences v l <= 1.
Proof.
  induction 1 as [|x l Hx _ IH]; [unfold occurrences; cbn [List.filter length]; lia|].
  rewrite occurrences_cons. destruct (String.eqb_spec v x) as [->|_]; [|lia].
  rewrite list_elem_of_In, <- occurrences_zero in Hx. lia.
Qed.

Lemma selected_count (m : Z) (sel : string -> bool) (data : Obj) :
  length (List.filter BarChart.bar_selected
            (List.map (fun kv => {| BarChart.bar_key := fst kv;
                                    BarChart.bar_height := BarChart.height m (snd kv);
                                    BarChart.bar_selected := sel (fst kv) |})
               data))
  = length (List.filter sel (Obj_keys data)).
Proof.
  unfold Obj_keys. induction data as [|kv data IH]; [reflexivity|].
  cbn [List.map List.filter BarChart.bar_selected].
  destruct (sel (fst kv)); cbn [length]; now rewrite IH.
Qed.

(** X22. For a chart whose values are not negative and whose keys are
    distinct (every grouped count is such): the height of each bar is
    between 0 and 100 per cent; unless all values are 0, a bar of the
    greatest value has the height 100; at most one bar is shown as
    selected. *)
Theorem bar_chart_heights (data : Obj) (dataKey : string)
    (activeFilter : option Index.ChartFilter) :
  Forall (fun kv => 0 <= snd kv) data ->
  NoDup (Obj_keys data) ->
  let bs := BarChart.bars data dataKey activeFilter in
  Forall (fun b => (0 <= BarChart.bar_height b)%Q
                   /\ (BarChart.bar_height b <= 100)%Q) bs
  /\ (BarChart.maxValue data = 0
      \/ Exists (fun b => BarChart.bar_height b == 100) bs)
  /\ (length (List.filter BarChart.bar_selected bs) <= 1)%nat.
Proof.
  intros Hpos Hnd bs.
  destruct (maxValue_bounds data) as [Hm Hle].
  split; [|split].
  - unfold bs, BarChart.bars. apply List.Forall_forall. intros b Hb.
    apply in_map_iff in Hb as (kv & <- & Hkv). cbn [BarChart.bar_height].
    rewrite List.Forall_forall in Hpos, Hle.
    apply height_bounds. split; [now apply Hpos|now apply Hle].
  - destruct (maxValue_attained data) as [H0|(kv & Hin & Hkv)]; [now left|].
    destruct (Z.eq_dec (BarChart.maxValue data) 0) as [H0|H0]; [now left|].
    right. apply List.Exists_exists.
    exists {| BarChart.bar_key := fst kv;
              BarChart.bar_height := BarChart.height (BarChart.maxValue data) (snd kv);
              BarChart.bar_selected :=
                BarChart.isSelected activeFilter dataKey (fst kv) |}.
    split; [unfold bs, BarChart.bars; apply in_map_iff; now exists kv|].
    cbn [BarChart.bar_height]. rewrite Hkv. apply height_full. lia.
  - unfold bs, BarChart.bars. rewrite selected_count.
    destruct activeFilter as [[cat v]|].
    + change (BarChart.isSelected (Some (Index.mkChartFilter cat v)) dataKey)
        with (fun k => (String.eqb cat dataKey && String.eqb v k)%bool).
      destruct (String.eqb cat dataKey); cbn [andb].
      * apply Nat2Z.inj_le. exact (occurrences_NoDup v (Obj_keys data) Hnd).
      * clear. induction (Obj_keys data) as [|k l IH]; [cbn; lia|exact IH].
    + clear. cbn [BarChart.isSelected].
      induction (Obj_keys data) as [|k l IH]; [cbn; lia|exact IH].
Qed.

(** Every grouped count is such a chart. *)
Lemma reduceToCount_chart data key :
  Forall (fun kv => 0 <= snd kv) (reduceToCount data key)
  /\ NoDup (Obj_keys (reduceToCount data key)).
Proof.
  rewrite reduceToCount_closed. split.
  - apply List.Forall_forall. intros kv Hkv.
    apply in_map_iff in Hkv as (k & <- & _). apply occurrences_nonneg.
  - unfold Obj_keys. rewrite List.map_map. cbn [fst].
    rewrite List.map_id. apply firstSeen_NoDup.
Qed.

Lemma bar_chart_heights_witness :
  Forall (fun kv => 0 <= snd kv)
    (reduceToCount (attribute sample_events sample_users) Channel)
  /\ NoDup (Obj_keys (reduceToCount (attribute sample_events sample_users) Channel))
  /\ let data := reduceToCount (attribute sample_events sample_users) Channel in
     let bs :=
       BarChart.bars data "channel" (Some (Index.mkChartFilter "channel" "Popup")) in
     Forall (fun b => (0 <= BarChart.bar_height b)%Q
                      /\ (BarChart.bar_height b <= 100)%Q) bs
     /\ (BarChart.maxValue data = 0
         \/ Exists (fun b => BarChart.bar_height b == 100) bs)
     /\ (length (List.filter BarChart.bar_selected bs) <= 1)%nat.
Proof.
  destruct (reduceToCount_chart (attribute sample_events sample_users) Channel)
    as [H1 H2].
  split; [exact H1|]. split; [exact H2|].
  exact (bar_chart_heights _ "channel"
           (Some (Index.mkChartFilter "channel" "Popup")) H1 H2).
Defined.

(** ** The transactions shown with the clicks (index.tsx, lines 234-237) *)

(** X23. In index.tsx, whatever the filters, every transaction that
    passes belongs to exactly one attributed click that passes, the one
    of its user, and has the channel of that click; the transactions
    that pass are a subsequence of the transactions and no two of them
    have the same user. *)
Theorem shown_transactions_have_shown_clicks
    (Date_parse : string -> option Z) (setHours_23_59_59_999 : Z -> Z)
    (events : list Event) (users : list User) (rng : nat -> Q) (i : nat)
    (f : gmap string string) :
  let d := generateFrom events users rng i in
  let fc := Index.filteredClicks Date_parse setHours_23_59_59_999 f (clickData d) in
  let ft := Index.filteredTrans fc (transactions d) in
  Forall (fun t => exists c,
            In c fc /\ user_id c = t_user_id t /\ channel c = t_channel t
            /\ forall c', In c' fc -> user_id c' = t_user_id t -> c' = c) ft
  /\ sublist ft (transactions d)
  /\ NoDup (List.map t_user_id ft).
Proof.
  intros d fc ft.
  assert (Hsub : sublist ft (transactions d)) by apply filter_sublist.
  assert (Hfc : forall c, In c fc -> In c (clickData d))
    by (intros c; apply sublist_In, filter_sublist).
  split; [|split; [exact Hsub|]].
  - apply List.Forall_forall. intros t Ht.
    apply filteredTrans_In in Ht as (Ht & c & Hc & Hid).
    destruct (transactions_of_clicks events users rng i t Ht)
      as (c0 & Hc0 & Hid0 & Hch0).
    assert (Hsame : forall c', In c' fc -> user_id c' = t_user_id t -> c' = c0).
    { intros c' Hc' Hid'.
      apply (NoDup_map_same user_id (clickData d)); try assumption;
        [apply attribute_NoDup|now apply Hfc|congruence]. }
    pose proof (Hsame c Hc Hid) as Heq. subst c0.
    exists c. split; [exact Hc|]. split; [exact Hid0|]. split; [exact Hch0|exact Hsame].
  - eapply sublist_NoDup; [apply (transactions_NoDup events users rng i)|].
    now apply sublist_map.
Qed.

(** ** The configuration of the source (lines 6-11) *)

(** [MOCK_CONFIG] meets the conditions on a configuration once the clock
    is past the start date. *)
Lemma MOCK_CONFIG_valid (now : Z) :
  1704067200000 <= now ->
  (1 <= cfg_users (MOCK_CONFIG now))%nat
  /\ cfg_startDate (MOCK_CONFIG now) <= cfg_endDate (MOCK_CONFIG now).
Proof. intros H. cbn. split; lia. Qed.

(** ** Grouped counts in the snapshots *)

(** The counting reduction of a list of keys gives their grouped count. *)
Lemma countInto_grouped {A : Type} (keyOf : A -> string) (data : list A) :
  countInto keyOf [] data = grouped (List.map keyOf data).
Proof.
  set (values := List.map keyOf data).
  assert (Hkeys : Obj_keys (countInto keyOf [] data) = firstSeen [] values)
    by apply (countInto_keys keyOf data []).
  unfold grouped. rewrite <- Hkeys. apply Obj_of_keys.
  - rewrite Hkeys. apply firstSeen_NoDup.
  - intros k Hk. rewrite Hkeys in Hk. apply firstSeen_In in Hk as [Hk _].
    rewrite countInto_get. fold values. cbn [Obj_get orZero].
    destruct (Z.eqb_spec (occurrences k values) 0) as [H0|_];
      [|now rewrite Z.add_0_l].
    now apply occurrences_zero in H0.
Qed.

Lemma map_id_string (l : list string) : List.map (fun x => x) l = l.
Proof. induction l as [|x l IH]; cbn; [reflexivity|]. now rewrite IH. Qed.

Lemma grouped_keys values : Obj_keys (grouped values) = firstSeen [] values.
Proof.
  unfold grouped, Obj_keys. rewrite List.map_map. apply map_id_string.
Qed.

Lemma grouped_get values k :
  Obj_get (grouped values) k
  = if occurrences k values =? 0 then None else Some (occurrences k values).
Proof.
  rewrite <- (map_id_string values) at 1.
  rewrite <- (countInto_grouped (fun x : string => x)), countInto_get.
  rewrite map_id_string. cbn [Obj_get orZero]. now rewrite Z.add_0_l.
Qed.

(** The labels of the customer types of the data model. *)
Lemma customer_type_label k :
  In k (List.map fst CUSTOMER_TYPE_LABELS) ->
  In (k, JsString.capitalize k) CUSTOMER_TYPE_LABELS.
Proof.
  cbn. intros [<-|[<-|[<-|[]]]]; cbn; tauto.
Qed.

Lemma customer_types_model :
  List.map fst CUSTOMER_TYPE_LABELS = Generator.CUSTOMER_TYPES.
Proof. reflexivity. Qed.

Lemma Forall2_map_same {A B : Type} (R : A -> B -> Prop) (f : A -> B)
    (l : list A) :
  (forall x, In x l -> R x (f x)) -> Forall2 R l (List.map f l).
Proof.
  induction l as [|x l IH]; intros H; cbn; constructor.
  - apply H. now left.
  - apply IH. intros y Hy. apply H. now right.
Qed.

(** C6. For clicks whose values are ordinary property names
    (no string of digits, no name of [Object.prototype]) and whose
    customer type is active, dormant or churned: in the snapshot of
    index.tsx the counts by channel and by gender, and in the snapshot of
    part_000 the counts by channel, device_info, customer_type,
    send_country and gender, map exactly the distinct values present among
    the clicks, in the order in which they are met first, each to the
    number of clicks that have it; the count by customer type in the
    snapshot of index.tsx has the same entries under the labels Active,
    Dormant and Churned in place of the values; no snapshot has a count by
    platform_type, of which the shared reduction would give the grouped
    count as well. *)
Theorem grouped_counts (reached : Z) (data : list AttributedClick)
    (ft : list Transaction) :
  Forall ordinaryClick data ->
  let a := Index.analytics reached data ft in
  let b := Part000.analytics data ft in
  (Index.channelPerformance a = grouped (List.map channel data)
   /\ Index.genderDistribution a = grouped (List.map gender data)
   /\ Forall2 (fun kv shown =>
                 In (fst kv, fst shown) CUSTOMER_TYPE_LABELS
                 /\ snd shown = snd kv)
        (grouped (List.map customer_type data))
        (Index.customerTypeDistribution a))
  /\ (Part000.a_channel b = grouped (List.map channel data)
      /\ Part000.a_device b = grouped (List.map device_info data)
      /\ Part000.a_customerType b = grouped (List.map customer_type data)
      /\ Part000.a_sendCountry b = grouped (List.map send_country data)
      /\ Part000.a_gender b = grouped (List.map gender data))
  /\ (reduceToCount data PlatformType = grouped (List.map platform_type data)
      /\ Part000.countBy data PlatformType
         = grouped (List.map platform_type data))
  /\ (forall values,
        NoDup (Obj_keys (grouped values))
        /\ (forall k, In k (Obj_keys (grouped values)) <-> In k values)
        /\ (forall k, Obj_get (grouped values) k
                      = if occurrences k values =? 0 then None
                        else Some (occurrences k values))
        /\ Forall (fun kv => 1 <= snd kv) (grouped values)).
Proof.
  intros Hord a b.
  assert (Hcount : forall key, reduceToCount data key
                               = grouped (List.map (field key) data)).
  { intros key. apply (countInto_grouped (field key)). }
  split; [|split; [|split]].
  - split; [apply (Hcount Channel)|]. split; [apply (Hcount Gender)|].
    assert (Htypes : Forall (fun d => In (customer_type d)
                                        Generator.CUSTOMER_TYPES) data).
    { eapply List.Forall_impl; [|exact Hord].
      intros c Hc. rewrite <- customer_types_model. apply Hc. }
    assert (Hkeys : forall k, In k (firstSeen [] (List.map customer_type data)) ->
                              In k Generator.CUSTOMER_TYPES).
    { intros k Hk. apply firstSeen_In in Hk as [Hk _].
      apply in_map_iff in Hk as (d & <- & Hd).
      rewrite List.Forall_forall in Htypes. now apply Htypes. }
    unfold a. cbn [Index.analytics Index.customerTypeDistribution].
    unfold Index.customerTypeFormatted.
    rewrite (Hcount CustomerType).
    change (List.map (field CustomerType) data) with (List.map customer_type data).
    rewrite formatted_from.
    + cbn [app]. apply Forall2_map_same. intros [k n] Hkn. cbn [fst snd].
      split; [|reflexivity]. apply customer_type_label.
      rewrite customer_types_model. apply Hkeys.
      rewrite <- grouped_keys. unfold Obj_keys.
      now apply (in_map fst) in Hkn.
    + cbn [Obj_keys List.map app]. unfold grouped. rewrite List.map_map. cbn [fst].
      apply NoDup_map_on; [|apply firstSeen_NoDup].
      intros x y Hx Hy. now apply capitalize_customer_types; apply Hkeys.
  - repeat split.
    + apply (Hcount Channel).
    + apply (Hcount DeviceInfo).
    + apply (Hcount CustomerType).
    + apply (Hcount SendCountry).
    + apply (Hcount Gender).
  - split; apply (Hcount PlatformType).
  - intros values. split; [|split; [|split]].
    + rewrite grouped_keys. apply firstSeen_NoDup.
    + intros k. rewrite grouped_keys, firstSeen_In. cbn. tauto.
    + apply grouped_get.
    + unfold grouped. apply List.Forall_forall. intros kv Hkv.
      apply in_map_iff in Hkv as (k & <- & Hk). cbn [snd].
      apply firstSeen_In in Hk as [Hk _].
      pose proof (occurrences_nonneg k values) as Hn.
      destruct (Z.eq_dec (occurrences k values) 0) as [H0|H0]; [|lia].
      now apply occurrences_zero in H0.
Qed.

(** The clicks of the scenario, counted by channel and by customer type. *)
Lemma grouped_counts_witness :
  Forall ordinaryClick (attribute sample_events sample_users)
  /\ Index.channelPerformance
       (Index.analytics 1 (attribute sample_events sample_users) [])
     = [("Popup", 1); ("Slider", 1)]
  /\ Part000.a_customerType
       (Part000.analytics (attribute sample_events sample_users) [])
     = [("active", 2)]
  /\ Index.customerTypeDistribution
       (Index.analytics 1 (attribute sample_events sample_users) [])
     = [("Active", 2)].
Proof.
  assert (H : Forall ordinaryClick (attribute sample_events sample_users)).
  { repeat (constructor; [repeat split; cbn; tauto|]). constructor. }
  split; [exact H|].
  destruct (grouped_counts 1 (attribute sample_events sample_users) [] H)
    as ((Hch & _ & Hct) & (_ & _ & Hpt & _) & _).
  split; [rewrite Hch; reflexivity|]. split; [rewrite Hpt; reflexivity|].
  change (grouped (List.map customer_type (attribute sample_events sample_users)))
    with [("active", 2)] in Hct.
  apply Forall2_cons_inv_l in Hct as ([label n] & rest & [Hlabel Hn] & Hrest & ->).
  apply Forall2_nil_inv_l in Hrest as ->.
  cbn [fst snd] in Hlabel, Hn. subst n.
  destruct Hlabel as [Hl|[Hl|[Hl|[]]]];
    [injection Hl as <-|discriminate Hl|discriminate Hl].
  reflexivity.
Defined.

(** C6 as it is written fails of index.tsx: in its snapshot the count by
    customer type is keyed by the capitalized labels, so for a click of
    customer type active the key is Active, which is no value of
    customer_type present among the clicks. *)
Lemma grouped_counts_counterexample :
  List.map customer_type [sample_click 30] = ["active"]
  /\ Index.customerTypeDistribution (Index.analytics 1 [sample_click 30] [])
     = [("Active", 1)]
  /\ ~ (forall k,
         In k (Obj_keys (Index.customerTypeDistribution
                           (Index.analytics 1 [sample_click 30] [])))
         <-> In k (List.map customer_type [sample_click 30])).
Proof.
  split; [reflexivity|]. split; [reflexivity|].
  intros H. destruct (proj1 (H "Active")) as [Heq|[]]; [now left|].
  discriminate Heq.
Qed.
